(** * Rebalancing job: shallow embedding of [gcp_function_main.py]

    The Python module reads a target allocation (a CSV already parsed into a
    data frame), diffs it against the held positions, prices the resulting
    orders through the broker, and submits sells before buys, polling each
    submitted order until it fills, is cancelled, expires or times out.

    Python floats are IEEE binary64 numbers: they are modelled by Rocq's
    primitive floats, so every arithmetic step below computes what CPython
    computes.  Python dicts keep insertion order: they are association lists
    whose keys are kept unique by [dict_set]. *)

From Stdlib Require Import Floats.
From Stdlib Require Import ZArith List String Bool Lia Permutation.
Import ListNotations.

Local Open Scope string_scope.
Local Open Scope list_scope.

(* ================================================================= *)
(** ** Exceptions and results *)

Inductive exn : Type :=
| ZeroDivisionError
| KeyError (key : string)
| ValueError
| OverflowError
| BrokerError (reason : string).

Inductive result (A : Type) : Type :=
| Ok (a : A)
| Raise (e : exn).

Arguments Ok {A} a.
Arguments Raise {A} e.

Definition bind {A B : Type} (r : result A) (k : A -> result B) : result B :=
  match r with
  | Ok a => k a
  | Raise e => Raise e
  end.

Notation "x <- c ;; k" := (bind c (fun x => k))
  (at level 61, c at next level, right associativity).

(** [for x in xs: acc = body(acc, x)], leaving the loop at the first
    exception. *)
Fixpoint for_each {A S : Type} (body : S -> A -> result S) (xs : list A) (acc : S)
  : result S :=
  match xs with
  | [] => Ok acc
  | x :: xs' => acc' <- body acc x ;; for_each body xs' acc'
  end.

(** A list comprehension whose element expression may raise. *)
Fixpoint map_result {A B : Type} (f : A -> result B) (xs : list A) : result (list B) :=
  match xs with
  | [] => Ok []
  | x :: xs' => y <- f x ;; ys <- map_result f xs' ;; Ok (y :: ys)
  end.

(* ================================================================= *)
(** ** Python numbers *)

(** A quantity is a [float], or the [int] that [round] returns. *)
Inductive num : Type :=
| PyFloat (x : float)
| PyInt (n : Z).

(** [x / y] on floats: CPython raises [ZeroDivisionError] when the divisor
    compares equal to zero (either sign). *)
Definition py_div (x y : float) : result float :=
  if PrimFloat.eqb y 0%float then Raise ZeroDivisionError else Ok (PrimFloat.div x y).

(** [sum(values)] over floats: a left fold starting from [0].  This is the
    sum of a float64 column on CPython before 3.12.  CPython 3.12 and later
    compensate the rounding errors of a float sum, and on an int64 column
    Python adds exact integers; the statements below use the total only
    through [py_sum], and the sample sums are exact either way. *)
Definition py_sum (xs : list float) : float :=
  fold_left PrimFloat.add xs 0%float.

(** [round(x)] with one argument: the nearest integer, ties to even;
    [ValueError] on NaN and [OverflowError] on an infinity. *)
Definition py_round (x : float) : result Z :=
  match Prim2SF x with
  | S754_nan => Raise ValueError
  | S754_infinity _ => Raise OverflowError
  | S754_zero _ => Ok 0%Z
  | S754_finite s m e =>
      let mz := Z.pos m in
      let mag :=
        if (0 <=? e)%Z then (mz * 2 ^ e)%Z
        else
          let d := (2 ^ (- e))%Z in
          let q := (mz / d)%Z in
          let twice := (2 * (mz mod d))%Z in
          if (twice <? d)%Z then q
          else if (d <? twice)%Z then (q + 1)%Z
          else if Z.even q then q else (q + 1)%Z in
      Ok (if s then (- mag)%Z else mag)
  end.

(** [qty > 0] for either kind of number. *)
Definition num_gt0 (q : num) : bool :=
  match q with
  | PyFloat x => PrimFloat.ltb 0%float x
  | PyInt n => (0 <? n)%Z
  end.

(* ================================================================= *)
(** ** Dicts with insertion order *)

Definition dict (V : Type) : Type := list (string * V).

Definition keys {V : Type} (d : dict V) : list string := map fst d.
Definition values {V : Type} (d : dict V) : list V := map snd d.

Fixpoint dict_get {V : Type} (k : string) (d : dict V) : option V :=
  match d with
  | [] => None
  | (k', v) :: d' => if String.eqb k k' then Some v else dict_get k d'
  end.

(** [d[k] = v]: an existing key keeps its place, a new key goes last. *)
Fixpoint dict_set {V : Type} (k : string) (v : V) (d : dict V) : dict V :=
  match d with
  | [] => [(k, v)]
  | (k', v') :: d' =>
      if String.eqb k k' then (k, v) :: d' else (k', v') :: dict_set k v d'
  end.

Definition mem (k : string) (ks : list string) : bool :=
  existsb (String.eqb k) ks.

(** [d[k]], which raises [KeyError] on a missing key. *)
Definition dict_item {V : Type} (k : string) (d : dict V) : result V :=
  match dict_get k d with
  | Some v => Ok v
  | None => Raise (KeyError k)
  end.

(** Inserting pairs one after the other, from any starting dict. *)
Definition insert_all {V : Type} (kvs : list (string * V)) (d : dict V) : dict V :=
  fold_left (fun d kv => dict_set (fst kv) (snd kv) d) kvs d.

(** The dict built by inserting the pairs one after the other, as
    [Series.to_dict()] and a dict comprehension do. *)
Definition dict_of_items {V : Type} (kvs : list (string * V)) : dict V :=
  insert_all kvs [].

(** The value of the last pair with key [k]. *)
Fixpoint last_value {V : Type} (k : string) (kvs : list (string * V)) : option V :=
  match kvs with
  | [] => None
  | (k', v) :: kvs' =>
      match last_value k kvs' with
      | Some v' => Some v'
      | None => if String.eqb k k' then Some v else None
      end
  end.

(** The entries stored under [k]; a dict has at most one. *)
Definition entries_for {V : Type} (k : string) (d : dict V) : list (string * V) :=
  filter (fun kv => String.eqb (fst kv) k) d.


(** Iteration order of a Python [set] of strings: some arrangement of its
    elements, fixed by the interpreter's hashing and not by the program. *)
Record set_order : Type := {
  iter : list string -> list string;
  iter_perm : forall l, Permutation l (iter l)
}.

Definition insertion_order : set_order :=
  {| iter := fun l => l; iter_perm := @Permutation_refl string |}.

Definition reversed_order : set_order :=
  {| iter := @rev string; iter_perm := @Permutation_rev string |}.

(* ================================================================= *)
(** ** The allocation data frame *)

(** A cell of the percentage column as [pd.to_numeric(errors='coerce')] sees
    it: a number, or text that does not parse as one.  The column is taken
    as a float64 column, which is what pandas makes of it as soon as one
    cell has a decimal point, is empty or is text. *)
Inductive cell : Type :=
| CNum (x : float)
| CBad.

Definition to_numeric (c : cell) : float :=
  match c with
  | CNum x => x
  | CBad => PrimFloat.nan
  end.

Record row : Type := {
  Symphony : string;
  Ticker : string;
  Ticker_Allocation_Percent : cell
}.

(** The result of [pd.read_csv]: the header and the rows.  A row's fields are
    read only after the header check has found the three columns.  The
    Symphony and Ticker columns hold text. *)
Record DataFrame : Type := {
  columns : list string;
  rows : list row
}.

(** What a run leaves behind: log records (their text kept as structured
    data) and the calls that reach the broker or the clock. *)
Inductive message : Type :=
| MissingColumns (cols : list string)
| NaNValues
| StatusNotFilled (client_order_id status : string)
| StatusCheckError (client_order_id : string) (e : exn)
| NotFilledWithinTimeout (client_order_id : string)
| SubmitFailed (symbol : string) (e : exn)
| Attempting (action : string) (qty : num) (symbol : string)
| FailedToExecute (action symbol : string)
| SuccessfullyExecuted (action symbol : string) (qty : num)
| MarketClosed
| RebalancingComplete.

Inductive event : Type :=
| LogError (m : message)
| LogInfo (m : message)
| SubmitOrder (symbol : string) (qty : num) (side : string)
| GetOrder (client_order_id : string)
| Sleep (seconds : Z).

Definition expected_columns : list string :=
  ["Symphony"; "Ticker"; "Ticker Allocation Percent"].

Definition missing_columns (df : DataFrame) : list string :=
  filter (fun col => negb (mem col (columns df))) expected_columns.

(** [df[df['Symphony'] == symphony_to_trade]] with the percentage column
    coerced to numbers. *)
Definition filtered_df (df : DataFrame) (symphony_to_trade : string)
  : list (string * float) :=
  map (fun r => (Ticker r, to_numeric (Ticker_Allocation_Percent r)))
      (filter (fun r => String.eqb (Symphony r) symphony_to_trade) (rows df)).

(** The normalization at the end of [get_target_allocations]:
    [total = sum(target.values())], then
    [{ticker: percent / total for ticker, percent in target.items()}]. *)
Definition normalize (target_allocations : dict float) : result (dict float) :=
  let total_allocation_percent := py_sum (values target_allocations) in
  kvs <- map_result
           (fun kv => w <- py_div (snd kv) total_allocation_percent ;; Ok (fst kv, w))
           target_allocations ;;
  Ok (dict_of_items kvs).

(** [get_target_allocations], from the parsed CSV on.  The first component is
    what the function logs.  The [except KeyError] handler has no case here:
    once the three columns are known to exist, nothing in the [try] block
    looks up a missing key, and no other exception is caught. *)
Definition get_target_allocations (df : DataFrame) (symphony_to_trade : string)
  : list event * result (dict float) :=
  match missing_columns df with
  | (_ :: _) as missing => ([LogError (MissingColumns missing)], Ok [])
  | [] =>
      let filtered := filtered_df df symphony_to_trade in
      if existsb (fun kv => PrimFloat.is_nan (snd kv)) filtered then
        ([LogError NaNValues], Ok [])
      else
        let target_allocations := dict_of_items filtered in
        ([], normalize target_allocations)
  end.

(** The percentage in the last row of [symphony] whose ticker is [ticker]. *)
Fixpoint last_row_percent (symphony ticker : string) (rs : list row) : option float :=
  match rs with
  | [] => None
  | r :: rs' =>
      match last_row_percent symphony ticker rs' with
      | Some p => Some p
      | None =>
          if String.eqb (Symphony r) symphony && String.eqb (Ticker r) ticker
          then Some (to_numeric (Ticker_Allocation_Percent r))
          else None
      end
  end.

(** The dict that [to_dict()] builds from the filtered rows. *)
Definition retained (df : DataFrame) (symphony : string) : dict float :=
  dict_of_items (filtered_df df symphony).

Definition has_nan (df : DataFrame) (symphony : string) : bool :=
  existsb (fun kv => PrimFloat.is_nan (snd kv)) (filtered_df df symphony).

(* ================================================================= *)
(** ** Positions, orders and the broker *)

Record position : Type := {
  pos_qty : float;
  pos_market_value : float
}.

(** An entry of [orders]: ['side'], ['value'] and, once known, ['qty']. *)
Record order_details : Type := {
  side : string;
  value : float;
  qty : option num
}.

Definition set_qty (o : order_details) (q : num) : order_details :=
  {| side := side o; value := value o; qty := Some q |}.

(** The order that sells a whole position: its market value and its
    quantity, as held. *)
Definition full_liquidation (p : position) : order_details :=
  {| side := "sell"; value := pos_market_value p; qty := Some (PyFloat (pos_qty p)) |}.

(** The broker client over a broker state [B].  Any call may raise.  The two
    calls that change the broker return its next state; the status call also
    returns how long it took, because the polling loop measures time. *)
Record Api (B : Type) : Type := {
  list_positions : B -> result (list (string * position));
  get_account_equity : B -> result float;
  get_clock_is_open : B -> result bool;
  get_latest_trade_price : B -> string -> result float;
  get_asset_fractionable : B -> string -> result bool;
  submit_order : B -> string -> num -> string -> B * result string;
  get_order_by_client_order_id : B -> string -> B * N * result string
}.

Arguments list_positions {B} _ _.
Arguments get_account_equity {B} _ _.
Arguments get_clock_is_open {B} _ _.
Arguments get_latest_trade_price {B} _ _ _.
Arguments get_asset_fractionable {B} _ _ _.
Arguments submit_order {B} _ _ _ _ _.
Arguments get_order_by_client_order_id {B} _ _ _.

Section Calculator.

Context {B : Type}.
Variable so : set_order.
Variable api : Api B.
Variable b : B.

(** First loop of [calculate_orders]: sell everything held outside the
    target. *)
Definition sell_off_symbols (target_symbols current_symbols : list string) : list string :=
  iter so (filter (fun s => negb (mem s target_symbols)) current_symbols).

Definition liquidation_step (current_positions : dict position)
           (orders : dict order_details) (symbol : string) : result (dict order_details) :=
  p <- dict_item symbol current_positions ;;
  Ok (dict_set symbol
        {| side := "sell"; value := pos_market_value p;
           qty := Some (PyFloat (pos_qty p)) |} orders).

Definition liquidation_pass (current_positions : dict position) (symbols : list string)
  : result (dict order_details) :=
  for_each (liquidation_step current_positions) symbols [].

(** [current_positions.get(symbol, {}).get('market_value', 0)] *)
Definition current_value_of (current_positions : dict position) (symbol : string) : float :=
  match dict_get symbol current_positions with
  | Some p => pos_market_value p
  | None => 0%float
  end.

Definition difference_of (current_positions : dict position)
           (target_investment_amount : float) (symbol : string) (target_allocation : float)
  : float :=
  let desired_value := PrimFloat.mul target_investment_amount target_allocation in
  let current_value := current_value_of current_positions symbol in
  PrimFloat.sub desired_value current_value.

(** Second loop: one buy or sell per target symbol whose value differs. *)
Definition rebalance_step (current_positions : dict position)
           (target_investment_amount : float)
           (orders : dict order_details) (kv : string * float) : dict order_details :=
  let '(symbol, target_allocation) := kv in
  let difference :=
    difference_of current_positions target_investment_amount symbol target_allocation in
  if PrimFloat.ltb 0%float difference then
    dict_set symbol {| side := "buy"; value := difference; qty := None |} orders
  else if PrimFloat.ltb difference 0%float then
    dict_set symbol {| side := "sell"; value := PrimFloat.opp difference; qty := None |} orders
  else orders.

Definition rebalance_pass (current_positions : dict position)
           (target_investment_amount : float) (target_allocations : dict float)
           (orders : dict order_details) : dict order_details :=
  fold_left (rebalance_step current_positions target_investment_amount)
            target_allocations orders.

(** Third loop, one entry: target symbols get their quantity from the latest
    price; the other entries are left as they are.  [order_details] is the
    very object stored under [orders[symbol]], so assigning its ['qty']
    rewrites the entry in place. *)
Definition price_order (target_symbols : list string) (entry : string * order_details)
  : result (string * order_details) :=
  let '(symbol, details) := entry in
  if mem symbol target_symbols then
    price <- get_latest_trade_price api b symbol ;;
    q <- py_div (value details) price ;;
    fractionable <- get_asset_fractionable api b symbol ;;
    q' <- (if fractionable : bool then Ok (PyFloat q)
           else n <- py_round q ;; Ok (PyInt n)) ;;
    Ok (symbol, set_qty details q')
  else Ok (symbol, details).

Definition pricing_pass (target_symbols : list string) (orders : dict order_details)
  : result (dict order_details) :=
  map_result (price_order target_symbols) orders.

Definition calculate_orders (target_allocations : dict float)
           (current_positions : dict position) (target_investment_amount : float)
  : result (dict order_details) :=
  let current_symbols := keys current_positions in
  let target_symbols := keys target_allocations in
  orders <- liquidation_pass current_positions
              (sell_off_symbols target_symbols current_symbols) ;;
  let orders :=
    rebalance_pass current_positions target_investment_amount target_allocations orders in
  pricing_pass target_symbols orders.

End Calculator.

(** [separate_and_prioritize_orders]: two dict comprehensions over
    [orders.items()]. *)
Definition separate_and_prioritize_orders (orders : dict order_details)
  : dict order_details * dict order_details :=
  let sell_orders := dict_of_items (filter (fun kv => String.eqb (side (snd kv)) "sell") orders) in
  let buy_orders := dict_of_items (filter (fun kv => String.eqb (side (snd kv)) "buy") orders) in
  (sell_orders, buy_orders).

(** What the second loop leaves under a target symbol. *)
Definition rebalance_entry (positions : dict position) (amount : float)
           (s : string) (w : float) (before : option order_details) : option order_details :=
  let d := difference_of positions amount s w in
  if PrimFloat.ltb 0%float d then Some {| side := "buy"; value := d; qty := None |}
  else if PrimFloat.ltb d 0%float then
         Some {| side := "sell"; value := PrimFloat.opp d; qty := None |}
       else before.

(* ================================================================= *)
(** ** Executor and fill monitor *)

(** The part of the outside world a run acts on: the wall clock that
    [time.time()] reads, in seconds, and the broker.  Clock readings are
    integers: the timeout is [int(config['timeout'])] and the pause between
    two polls is the integer [3].  The clock moves when the polling loop
    sleeps, by exactly the time asked for, and while a status call is
    answered; the loop measures time from its own start, so what the other
    calls take does not matter to it. *)
Record World (B : Type) : Type := {
  now : Z;
  broker : B
}.

Arguments now {B} _.
Arguments broker {B} _.

Section Executor.

Context {B : Type}.
Variable api : Api B.

Definition retry_interval : Z := 3.

(** [sleep(3)] *)
Definition sleep (seconds : Z) (w : World B) : World B :=
  {| now := now w + seconds; broker := broker w |}.

Definition terminal_failure (status : string) : bool :=
  mem status ["cancelled"; "expired"].

(** The [while] loop of [wait_for_order_fill].  [fuel] bounds the number of
    iterations; [None] means the bound was too small. *)
Fixpoint wait_loop (fuel : nat) (client_order_id : string) (start_time timeout : Z)
         (w : World B) : option (list event * World B * bool) :=
  match fuel with
  | O => None
  | S fuel' =>
      if (now w - start_time <? timeout)%Z then
        let '(b', took, r) := get_order_by_client_order_id api (broker w) client_order_id in
        let w1 := {| now := now w + Z.of_N took; broker := b' |} in
        let polled := GetOrder client_order_id in
        match r with
        | Ok status =>
            if String.eqb status "filled" then Some ([polled], w1, true)
            else if terminal_failure status then
              Some ([polled; LogError (StatusNotFilled client_order_id status)], w1, false)
            else
              match wait_loop fuel' client_order_id start_time timeout
                              (sleep retry_interval w1) with
              | Some (evs, w2, filled) =>
                  Some (polled :: Sleep retry_interval :: evs, w2, filled)
              | None => None
              end
        | Raise e =>
            match wait_loop fuel' client_order_id start_time timeout
                            (sleep retry_interval w1) with
            | Some (evs, w2, filled) =>
                Some (polled :: LogError (StatusCheckError client_order_id e)
                        :: Sleep retry_interval :: evs, w2, filled)
            | None => None
            end
        end
      else Some ([LogError (NotFilledWithinTimeout client_order_id)], w, false)
  end.

Definition wait_for_order_fill (fuel : nat) (client_order_id : string) (timeout : Z)
           (w : World B) : option (list event * World B * bool) :=
  let start_time := now w in
  wait_loop fuel client_order_id start_time timeout w.

(** [create_and_submit_order]: the client order id, or [None] after logging
    the broker's error. *)
Definition create_and_submit_order (symbol : string) (q : num) (side : string)
           (w : World B) : list event * World B * option string :=
  let '(b', r) := submit_order api (broker w) symbol q side in
  let w1 := {| now := now w; broker := b' |} in
  match r with
  | Ok client_order_id => ([SubmitOrder symbol q side], w1, Some client_order_id)
  | Raise e => ([SubmitOrder symbol q side; LogError (SubmitFailed symbol e)], w1, None)
  end.

(** Truth value of [client_order_id]: [None] and the empty string are false. *)
Definition truthy (client_order_id : option string) : bool :=
  match client_order_id with
  | Some s => negb (String.eqb s "")
  | None => false
  end.

(** One iteration of the inner [for] loop of [execute_prioritized_orders]. *)
Definition execute_order (fuel : nat) (action : string) (timeout : Z)
           (symbol : string) (details : order_details) (w : World B)
  : option (list event * World B * result unit) :=
  match qty details with
  | None => Some ([], w, Raise (KeyError "qty"))
  | Some q =>
      if num_gt0 q then
        let attempt := LogInfo (Attempting action q symbol) in
        let '(evs1, w1, client_order_id) := create_and_submit_order symbol q action w in
        match client_order_id with
        | Some id =>
            if truthy client_order_id then
              match wait_for_order_fill fuel id timeout w1 with
              | Some (evs2, w2, filled) =>
                  let outcome :=
                    if filled then LogInfo (SuccessfullyExecuted action symbol q)
                    else LogError (FailedToExecute action symbol) in
                  Some (attempt :: evs1 ++ evs2 ++ [outcome], w2, Ok tt)
              | None => None
              end
            else
              Some (attempt :: evs1 ++ [LogInfo (SuccessfullyExecuted action symbol q)],
                    w1, Ok tt)
        | None =>
            Some (attempt :: evs1 ++ [LogInfo (SuccessfullyExecuted action symbol q)],
                  w1, Ok tt)
        end
      else Some ([], w, Ok tt)
  end.

(** The inner loop over one group of orders. *)
Fixpoint execute_group (fuel : nat) (action : string) (timeout : Z)
         (orders : dict order_details) (w : World B)
  : option (list event * World B * result unit) :=
  match orders with
  | [] => Some ([], w, Ok tt)
  | (symbol, details) :: rest =>
      match execute_order fuel action timeout symbol details w with
      | Some (evs1, w1, Ok _) =>
          match execute_group fuel action timeout rest w1 with
          | Some (evs2, w2, r) => Some (evs1 ++ evs2, w2, r)
          | None => None
          end
      | Some (evs1, w1, Raise e) => Some (evs1, w1, Raise e)
      | None => None
      end
  end.

(** [for orders, action in [(sell_orders, "sell"), (buy_orders, "buy")]] *)
Definition execute_prioritized_orders (fuel : nat)
           (sell_orders buy_orders : dict order_details) (timeout : Z) (w : World B)
  : option (list event * World B * result unit) :=
  match execute_group fuel "sell" timeout sell_orders w with
  | Some (evs1, w1, Ok _) =>
      match execute_group fuel "buy" timeout buy_orders w1 with
      | Some (evs2, w2, r) => Some (evs1 ++ evs2, w2, r)
      | None => None
      end
  | Some (evs1, w1, Raise e) => Some (evs1, w1, Raise e)
  | None => None
  end.

End Executor.

(** *** Reading a trace *)

Definition is_submit (e : event) : bool :=
  match e with
  | SubmitOrder _ _ _ => true
  | _ => false
  end.

(** The record with which the executor closes its handling of an order. *)
Definition resolves (action symbol : string) (e : event) : bool :=
  match e with
  | LogInfo (SuccessfullyExecuted a s _) => String.eqb a action && String.eqb s symbol
  | LogError (FailedToExecute a s) => String.eqb a action && String.eqb s symbol
  | _ => false
  end.


(** How long a status call takes and what it answers, in broker state [b]. *)
Definition poll_duration {B : Type} (api : Api B) (b : B) (client_order_id : string) : Z :=
  Z.of_N (snd (fst (get_order_by_client_order_id api b client_order_id))).

Definition poll_answer {B : Type} (api : Api B) (b : B) (client_order_id : string)
  : result string :=
  snd (get_order_by_client_order_id api b client_order_id).

(** The polled status never becomes filled, cancelled or expired. *)
Definition never_terminal {B : Type} (api : Api B) (client_order_id : string) : Prop :=
  forall b status,
    poll_answer api b client_order_id = Ok status ->
    String.eqb status "filled" = false /\ terminal_failure status = false.

(** *** What it means for an order to be resolved *)





(* ================================================================= *)
(** ** Orchestrator *)

Record Config : Type := {
  symphony_to_trade : string;
  cash_weight : float;
  timeout : Z
}.

Section Orchestrator.

Context {B : Type}.
Variable so : set_order.
Variable api : Api B.

(** [{position.symbol: {...} for position in api.list_positions()}] *)
Definition get_current_positions (b : B) : result (dict position) :=
  positions <- list_positions api b ;; Ok (dict_of_items positions).

Definition calculate_target_investment (b : B) (cash_weight : float) : result float :=
  equity <- get_account_equity api b ;; Ok (PrimFloat.mul equity cash_weight).

Definition is_market_open (b : B) : result bool := get_clock_is_open api b.

(** [hello_pubsub] after the configuration is loaded and the CSV is
    downloaded and parsed into [df].  Log records that only echo a value are
    left out. *)
Definition hello_pubsub (fuel : nat) (config : Config) (df : DataFrame) (w : World B)
  : option (list event * World B * result unit) :=
  let '(logs, fetched) := get_target_allocations df (symphony_to_trade config) in
  let staged :=
    target_allocations <- fetched ;;
    current_positions <- get_current_positions (broker w) ;;
    target_investment_amount <-
      calculate_target_investment (broker w) (cash_weight config) ;;
    market_open <- is_market_open (broker w) ;;
    if negb market_open then Ok None
    else
      orders <- calculate_orders so api (broker w) target_allocations
                  current_positions target_investment_amount ;;
      Ok (Some (separate_and_prioritize_orders orders)) in
  match staged with
  | Raise e => Some (logs, w, Raise e)
  | Ok None => Some (logs ++ [LogInfo MarketClosed], w, Ok tt)
  | Ok (Some (sell_orders, buy_orders)) =>
      match execute_prioritized_orders api fuel sell_orders buy_orders
                                       (timeout config) w with
      | Some (evs, w', Ok _) =>
          Some (logs ++ evs ++ [LogInfo RebalancingComplete], w', Ok tt)
      | Some (evs, w', Raise e) => Some (logs ++ evs, w', Raise e)
      | None => None
      end
  end.

End Orchestrator.

(* ================================================================= *)
(** ** Start-up: the configuration *)

(** How [validate_config] leaves: it returns, or it logs an error and calls
    [sys.exit(1)]. *)
Inductive startup : Type :=
| Validated
| SystemExit (status : Z).

Definition required_params : list string :=
  ["ALPACA_API_KEY"; "ALPACA_SECRET_KEY"; "ALPACA_BASE_URL"; "symphony_to_trade";
   "symphony_url"; "cash_weight"; "timeout"].

(** [if not all(param in config for param in required_params): sys.exit(1)] *)
Definition validate_config {V : Type} (config : dict V) : startup :=
  if forallb (fun param => mem param (keys config)) required_params
  then Validated else SystemExit 1.

(** The keys [hello_pubsub] subscripts in [config] before it fetches the
    target: the three of [initialize_alpaca], then ['symphony_url'],
    ['service_account_file'] and ['symphony_to_trade'], in that order. *)
Definition keys_read_before_fetch : list string :=
  ["ALPACA_API_KEY"; "ALPACA_SECRET_KEY"; "ALPACA_BASE_URL";
   "symphony_url"; "service_account_file"; "symphony_to_trade"].

Definition read_before_fetch {V : Type} (config : dict V) : result (list V) :=
  map_result (fun key => dict_item key config) keys_read_before_fetch.

(* ================================================================= *)
(** ** What a trace submits and polls *)

Definition is_poll (e : event) : bool :=
  match e with
  | GetOrder _ => true
  | _ => false
  end.

(** The submissions a group of orders calls for: one for each order whose
    quantity is positive, in the order of the dict. *)
Definition due_submissions (action : string) (orders : dict order_details) : list event :=
  flat_map (fun kv =>
              match qty (snd kv) with
              | Some q => if num_gt0 q then [SubmitOrder (fst kv) q action] else []
              | None => []
              end) orders.

(* ================================================================= *)
(** ** Sample runs *)

Module Sample.

Local Open Scope float_scope.

Definition allocation_row (symphony ticker : string) (percent : float) : row :=
  {| Symphony := symphony; Ticker := ticker; Ticker_Allocation_Percent := CNum percent |}.

Definition sheet (rs : list row) : DataFrame :=
  {| columns := ["Symphony"; "Ticker"; "Ticker Allocation Percent"]; rows := rs |}.

(** Two strategies; "Alpha" lists AAA twice. *)
Definition df : DataFrame :=
  sheet [allocation_row "Alpha" "AAA" 50; allocation_row "Alpha" "BBB" 25;
         allocation_row "Beta" "CCC" 100; allocation_row "Alpha" "AAA" 75].

(** A strategy whose percentages are all zero. *)
Definition zero_df : DataFrame :=
  sheet [allocation_row "Alpha" "AAA" 0; allocation_row "Alpha" "BBB" 0].

Definition held : list (string * position) :=
  [("CCC", {| pos_qty := 5; pos_market_value := 500 |})].

Definition positions : dict position := dict_of_items held.

Definition target : dict float := [("AAA", 0.75); ("BBB", 0.25)].

(** A broker that prices AAA at 8 and everything else at 3, lets only AAA
    trade in fractions, accepts every order and reports it filled at the
    first poll. *)
Definition api : Api unit :=
  {| list_positions := fun _ => Ok held;
     get_account_equity := fun _ => Ok 1000;
     get_clock_is_open := fun _ => Ok true;
     get_latest_trade_price := fun _ s => Ok (if String.eqb s "AAA" then 8 else 3);
     get_asset_fractionable := fun _ s => Ok (String.eqb s "AAA");
     submit_order := fun _ s _ _ => (tt, Ok ("id-" ++ s)%string);
     get_order_by_client_order_id := fun _ _ => (tt, 0%N, Ok "filled") |}.

(** The same broker with no latest trade for BBB. *)
Definition api_without_BBB_price : Api unit :=
  {| list_positions := list_positions api;
     get_account_equity := get_account_equity api;
     get_clock_is_open := get_clock_is_open api;
     get_latest_trade_price := fun _ s =>
       if String.eqb s "BBB" then Raise (BrokerError "no trade found for BBB")
       else Ok 8;
     get_asset_fractionable := get_asset_fractionable api;
     submit_order := submit_order api;
     get_order_by_client_order_id := get_order_by_client_order_id api |}.

(** The same broker rejecting every order for AAA. *)
Definition api_rejecting_AAA : Api unit :=
  {| list_positions := list_positions api;
     get_account_equity := get_account_equity api;
     get_clock_is_open := get_clock_is_open api;
     get_latest_trade_price := get_latest_trade_price api;
     get_asset_fractionable := get_asset_fractionable api;
     submit_order := fun _ s _ _ =>
       (tt, if String.eqb s "AAA" then Raise (BrokerError "insufficient buying power")
            else Ok ("id-" ++ s)%string);
     get_order_by_client_order_id := get_order_by_client_order_id api |}.

(** A broker whose orders stay "new"; each status call takes [took]
    seconds. *)
Definition api_never_filling (took : N) : Api unit :=
  {| list_positions := list_positions api;
     get_account_equity := get_account_equity api;
     get_clock_is_open := get_clock_is_open api;
     get_latest_trade_price := get_latest_trade_price api;
     get_asset_fractionable := get_asset_fractionable api;
     submit_order := submit_order api;
     get_order_by_client_order_id := fun _ _ => (tt, took, Ok "new") |}.

Definition world : World unit := {| now := 0; broker := tt |}.

Definition orders : dict order_details :=
  [("CCC", {| side := "sell"; value := 500; qty := Some (PyFloat 5) |});
   ("AAA", {| side := "buy"; value := 750; qty := Some (PyFloat 93.75) |});
   ("BBB", {| side := "buy"; value := 250; qty := Some (PyInt 83) |})].

Definition sell_orders : dict order_details :=
  [("CCC", {| side := "sell"; value := 500; qty := Some (PyFloat 5) |})].

Definition buy_orders : dict order_details :=
  [("AAA", {| side := "buy"; value := 750; qty := Some (PyFloat 93.75) |});
   ("BBB", {| side := "buy"; value := 250; qty := Some (PyInt 83) |})].

(** The configuration with the strategy name mistyped. *)
Definition config_with_typo : Config :=
  {| symphony_to_trade := "Alhpa"; cash_weight := 1; timeout := 7 |}.

End Sample.

(** Further sample data. *)
Module Scenario.

Local Open Scope float_scope.

(** The sample sheet with the percentage of the "Beta" row unreadable. *)
Definition df_bad_beta : DataFrame :=
  Sample.sheet [Sample.allocation_row "Alpha" "AAA" 50;
                Sample.allocation_row "Alpha" "BBB" 25;
                {| Symphony := "Beta"; Ticker := "CCC"; Ticker_Allocation_Percent := CBad |};
                Sample.allocation_row "Alpha" "AAA" 75].

(** A sheet without the percentage column. *)
Definition df_without_percent : DataFrame :=
  {| columns := ["Symphony"; "Ticker"]; rows := rows Sample.df |}.


(** AAA held above its target value, and held exactly at it. *)
Definition held_above_target : list (string * position) :=
  [("AAA", {| pos_qty := 100; pos_market_value := 900 |})].

Definition held_at_target : list (string * position) :=
  [("AAA", {| pos_qty := 100; pos_market_value := 750 |})].

(** A short position in CCC. *)
Definition short_held : list (string * position) :=
  [("CCC", {| pos_qty := -5; pos_market_value := -500 |})].

(** The sample broker quoting BBB at zero. *)
Definition api_BBB_at_zero : Api unit :=
  {| list_positions := list_positions Sample.api;
     get_account_equity := get_account_equity Sample.api;
     get_clock_is_open := get_clock_is_open Sample.api;
     get_latest_trade_price := fun _ s => Ok (if String.eqb s "BBB" then 0 else 8);
     get_asset_fractionable := get_asset_fractionable Sample.api;
     submit_order := submit_order Sample.api;
     get_order_by_client_order_id := get_order_by_client_order_id Sample.api |}.

(** The sample broker with the market closed. *)
Definition api_market_closed : Api unit :=
  {| list_positions := list_positions Sample.api;
     get_account_equity := get_account_equity Sample.api;
     get_clock_is_open := fun _ => Ok false;
     get_latest_trade_price := get_latest_trade_price Sample.api;
     get_asset_fractionable := get_asset_fractionable Sample.api;
     submit_order := submit_order Sample.api;
     get_order_by_client_order_id := get_order_by_client_order_id Sample.api |}.

(** The sample broker holding a short position in CCC. *)
Definition api_short : Api unit :=
  {| list_positions := fun _ => Ok short_held;
     get_account_equity := get_account_equity Sample.api;
     get_clock_is_open := get_clock_is_open Sample.api;
     get_latest_trade_price := get_latest_trade_price Sample.api;
     get_asset_fractionable := get_asset_fractionable Sample.api;
     submit_order := submit_order Sample.api;
     get_order_by_client_order_id := get_order_by_client_order_id Sample.api |}.

Definition config : Config :=
  {| symphony_to_trade := "Alpha"; cash_weight := 1; timeout := 7 |}.

(** A sell group whose second order has no quantity. *)
Definition sells_missing_qty : dict order_details :=
  [("CCC", {| side := "sell"; value := 500; qty := Some (PyFloat 5) |});
   ("DDD", {| side := "sell"; value := 100; qty := None |});
   ("EEE", {| side := "sell"; value := 100; qty := Some (PyFloat 1) |})].

(** Orders with a side that is neither sell nor buy. *)
Definition orders_with_hold : dict order_details :=
  [("CCC", {| side := "sell"; value := 500; qty := Some (PyFloat 5) |});
   ("DDD", {| side := "hold"; value := 0; qty := None |});
   ("AAA", {| side := "buy"; value := 750; qty := Some (PyFloat 93.75) |})].

(** A configuration file with the seven required keys and nothing else. *)
Definition settings : dict string :=
  [("ALPACA_API_KEY", "key"); ("ALPACA_SECRET_KEY", "secret");
   ("ALPACA_BASE_URL", "https://paper-api.alpaca.markets");
   ("symphony_to_trade", "Alpha"); ("symphony_url", "https://drive.google.com/uc?id=1");
   ("cash_weight", "1"); ("timeout", "7")]%string.

(** The same file without the timeout. *)
Definition settings_without_timeout : dict string :=
  [("ALPACA_API_KEY", "key"); ("ALPACA_SECRET_KEY", "secret");
   ("ALPACA_BASE_URL", "https://paper-api.alpaca.markets");
   ("symphony_to_trade", "Alpha"); ("symphony_url", "https://drive.google.com/uc?id=1");
   ("cash_weight", "1")]%string.

End Scenario.

(* ================================================================= *)
(** ** Facts about results and loops *)

Lemma map_result_Ok_Forall2 {A B : Type} (f : A -> result B) (xs : list A) (ys : list B) :
  map_result f xs = Ok ys -> Forall2 (fun x y => f x = Ok y) xs ys.
Proof.
  revert ys. induction xs as [|x xs IH]; simpl; intros ys H.
  - injection H as <-. constructor.
  - destruct (f x) as [y|e] eqn:Hx; simpl in H; [|discriminate].
    destruct (map_result f xs) as [ys'|e] eqn:Hxs; simpl in H; [|discriminate].
    injection H as <-. constructor; auto.
Qed.

Lemma map_result_all_Ok {A B : Type} (f : A -> result B) (g : A -> B) (xs : list A) :
  (forall x, In x xs -> f x = Ok (g x)) -> map_result f xs = Ok (map g xs).
Proof.
  induction xs as [|x xs IH]; simpl; intros H; [reflexivity|].
  rewrite (H x) by auto. simpl. rewrite IH by auto. reflexivity.
Qed.

Lemma map_result_Raise {A B : Type} (f : A -> result B) (xs : list A) (x : A) (e : exn) :
  In x xs -> f x = Raise e -> exists e', map_result f xs = Raise e'.
Proof.
  induction xs as [|y xs IH]; simpl; intros Hin Hx; [contradiction|].
  destruct (f y) as [b|e1] eqn:Hy; simpl; [|eauto].
  destruct Hin as [->|Hin]; [congruence|].
  destruct (IH Hin Hx) as [e' ->]. simpl. eauto.
Qed.

(* ================================================================= *)
(** ** Facts about dicts *)

Lemma mem_In (k : string) (ks : list string) : mem k ks = true <-> In k ks.
Proof.
  unfold mem. rewrite existsb_exists. split.
  - intros [x [Hx Heq]]. apply String.eqb_eq in Heq. subst. exact Hx.
  - intros H. exists k. split; [exact H | apply String.eqb_refl].
Qed.

Lemma mem_false_not_In (k : string) (ks : list string) : mem k ks = false <-> ~ In k ks.
Proof.
  rewrite <- mem_In. destruct (mem k ks); split; intros; congruence.
Qed.

Lemma dict_get_In_keys {V : Type} (k : string) (d : dict V) (v : V) :
  dict_get k d = Some v -> In k (keys d).
Proof.
  induction d as [|[k' v'] d IH]; simpl; [discriminate|].
  destruct (String.eqb_spec k k'); auto.
Qed.

Lemma dict_get_None_keys {V : Type} (k : string) (d : dict V) :
  dict_get k d = None <-> ~ In k (keys d).
Proof.
  induction d as [|[k' v'] d IH]; simpl; [tauto|].
  destruct (String.eqb_spec k k') as [->|Hne].
  - split; [discriminate | intros H; exfalso; auto].
  - rewrite IH. split; intros H; [intros [?|?]; [congruence | auto] | auto].
Qed.

Lemma dict_get_In {V : Type} (k : string) (d : dict V) (v : V) :
  dict_get k d = Some v -> In (k, v) d.
Proof.
  induction d as [|[k' v'] d IH]; simpl; [discriminate|].
  destruct (String.eqb_spec k k') as [->|Hne]; intros H.
  - injection H as ->. auto.
  - auto.
Qed.

Lemma In_dict_get {V : Type} (k : string) (d : dict V) (v : V) :
  NoDup (keys d) -> In (k, v) d -> dict_get k d = Some v.
Proof.
  induction d as [|[k' v'] d IH]; simpl; intros Hnd Hin; [contradiction|].
  inversion Hnd as [|? ? Hnotin Hnd']; subst.
  destruct Hin as [Heq|Hin].
  - injection Heq as -> ->. now rewrite String.eqb_refl.
  - destruct (String.eqb_spec k k') as [->|Hne]; auto.
    exfalso. apply Hnotin. change (In (fst (k', v)) (map fst d)). now apply in_map.
Qed.

Lemma dict_get_set {V : Type} (k k' : string) (v : V) (d : dict V) :
  dict_get k (dict_set k' v d) = if String.eqb k k' then Some v else dict_get k d.
Proof.
  induction d as [|[k0 v0] d IH]; simpl.
  - reflexivity.
  - destruct (String.eqb_spec k' k0) as [->|Hne]; simpl.
    + destruct (String.eqb_spec k k0); reflexivity.
    + rewrite IH. destruct (String.eqb_spec k k0) as [->|]; [|reflexivity].
      destruct (String.eqb_spec k0 k'); congruence.
Qed.

Lemma keys_dict_set {V : Type} (k : string) (v : V) (d : dict V) :
  keys (dict_set k v d) = if mem k (keys d) then keys d else keys d ++ [k].
Proof.
  induction d as [|[k0 v0] d IH]; simpl; [reflexivity|].
  destruct (String.eqb_spec k k0) as [->|Hne]; simpl; [reflexivity|].
  unfold keys in *. rewrite IH. destruct (mem k (map fst d)); reflexivity.
Qed.

Lemma dict_set_fresh {V : Type} (k : string) (v : V) (d : dict V) :
  ~ In k (keys d) -> dict_set k v d = d ++ [(k, v)].
Proof.
  induction d as [|[k0 v0] d IH]; simpl; intros H; [reflexivity|].
  destruct (String.eqb_spec k k0) as [->|Hne]; [exfalso; auto|].
  rewrite IH; auto.
Qed.

Lemma NoDup_keys_dict_set {V : Type} (k : string) (v : V) (d : dict V) :
  NoDup (keys d) -> NoDup (keys (dict_set k v d)).
Proof.
  intros H. rewrite keys_dict_set. destruct (mem k (keys d)) eqn:Hm; [exact H|].
  apply mem_false_not_In in Hm.
  apply NoDup_rev in H. rewrite <- (rev_involutive (keys d ++ [k])).
  apply NoDup_rev. rewrite rev_app_distr. simpl. constructor; [|exact H].
  now rewrite <- in_rev.
Qed.

Lemma In_keys_dict_set {V : Type} (k k' : string) (v : V) (d : dict V) :
  In k (keys (dict_set k' v d)) <-> k = k' \/ In k (keys d).
Proof.
  rewrite keys_dict_set. destruct (mem k' (keys d)) eqn:Hm.
  - apply mem_In in Hm. split; [auto | intros [->|]; auto].
  - rewrite in_app_iff. simpl. intuition congruence.
Qed.

Lemma NoDup_keys_insert_all {V : Type} (kvs : list (string * V)) (d : dict V) :
  NoDup (keys d) -> NoDup (keys (insert_all kvs d)).
Proof.
  revert d. induction kvs as [|[k v] kvs IH]; simpl; intros d H; [exact H|].
  apply IH. now apply NoDup_keys_dict_set.
Qed.

Lemma insert_all_fresh {V : Type} (kvs : list (string * V)) (d : dict V) :
  NoDup (keys (d ++ kvs)) -> insert_all kvs d = d ++ kvs.
Proof.
  revert d. induction kvs as [|[k v] kvs IH]; simpl; intros d H.
  - now rewrite app_nil_r.
  - assert (Hk : ~ In k (keys d)).
    { unfold keys in *. rewrite map_app in H. simpl in H.
      apply NoDup_remove_2 in H. rewrite in_app_iff in H. tauto. }
    rewrite dict_set_fresh by exact Hk.
    rewrite IH; rewrite <- app_assoc; simpl; [reflexivity | exact H].
Qed.

Lemma dict_of_items_NoDup_keys {V : Type} (kvs : list (string * V)) :
  NoDup (keys (dict_of_items kvs)).
Proof. apply (NoDup_keys_insert_all kvs []). constructor. Qed.

Lemma dict_of_items_id {V : Type} (d : dict V) :
  NoDup (keys d) -> dict_of_items d = d.
Proof. intros H. apply (insert_all_fresh d []). exact H. Qed.

Lemma dict_get_insert_all {V : Type} (k : string) (kvs : list (string * V)) (d : dict V) :
  dict_get k (insert_all kvs d) =
  match last_value k kvs with Some v => Some v | None => dict_get k d end.
Proof.
  revert d. induction kvs as [|[k' v] kvs IH]; simpl; intros d; [reflexivity|].
  rewrite IH, dict_get_set. destruct (last_value k kvs); [reflexivity|].
  destruct (String.eqb k k'); reflexivity.
Qed.

Lemma dict_get_dict_of_items {V : Type} (k : string) (kvs : list (string * V)) :
  dict_get k (dict_of_items kvs) = last_value k kvs.
Proof.
  unfold dict_of_items. rewrite dict_get_insert_all. destruct (last_value k kvs); reflexivity.
Qed.

Lemma entries_for_absent {V : Type} (k : string) (d : dict V) :
  ~ In k (keys d) -> entries_for k d = [].
Proof.
  induction d as [|[k' v'] d IH]; simpl; intros H; [reflexivity|].
  destruct (String.eqb_spec k' k) as [->|Hne]; [exfalso; auto|].
  apply IH. auto.
Qed.

Lemma entries_for_unique {V : Type} (k : string) (d : dict V) (v : V) :
  NoDup (keys d) -> dict_get k d = Some v -> entries_for k d = [(k, v)].
Proof.
  induction d as [|[k' v'] d IH]; simpl; intros Hnd Hget; [discriminate|].
  inversion Hnd as [|? ? Hnotin Hnd']; subst.
  destruct (String.eqb_spec k k') as [->|Hne].
  - injection Hget as ->. rewrite String.eqb_refl.
    fold (entries_for k' d). now rewrite entries_for_absent.
  - destruct (String.eqb_spec k' k); [congruence|]. auto.
Qed.

Lemma entries_for_none {V : Type} (k : string) (d : dict V) :
  dict_get k d = None -> entries_for k d = [].
Proof. intros H. apply entries_for_absent. now apply dict_get_None_keys. Qed.

(* ================================================================= *)
(** ** Facts about float comparisons with zero *)

Lemma float_pos_not_neg (d : float) :
  PrimFloat.ltb 0%float d = true -> PrimFloat.ltb d 0%float = false.
Proof.
  rewrite !FloatAxioms.ltb_spec. change (Prim2SF 0%float) with (S754_zero false).
  destruct (Prim2SF d) as [s| [|] | |[|] m e]; cbv; congruence.
Qed.

Lemma float_eq0_not_pos_neg (d : float) :
  PrimFloat.eqb d 0%float = true ->
  PrimFloat.ltb 0%float d = false /\ PrimFloat.ltb d 0%float = false.
Proof.
  rewrite FloatAxioms.eqb_spec, !FloatAxioms.ltb_spec.
  change (Prim2SF 0%float) with (S754_zero false).
  destruct (Prim2SF d) as [s| [|] | |[|] m e]; cbv; intros H; split; congruence.
Qed.

(* ================================================================= *)
(** ** Facts about the order calculator *)

Section CalculatorFacts.

Context {B : Type}.
Variable so : set_order.
Variable api : Api B.
Variable b : B.

Lemma liquidation_pass_Ok (positions : dict position) (symbols : list string)
      (acc orders : dict order_details) :
  for_each (liquidation_step positions) symbols acc = Ok orders ->
  (NoDup (keys acc) -> NoDup (keys orders)) /\
  (forall s, In s symbols ->
     exists p, dict_get s positions = Some p /\
               dict_get s orders = Some (full_liquidation p)) /\
  (forall s, ~ In s symbols -> dict_get s orders = dict_get s acc).
Proof.
  revert acc. induction symbols as [|x symbols IH]; simpl; intros acc H.
  - injection H as <-. repeat split; auto. intros s [].
  - unfold liquidation_step at 1, dict_item in H.
    destruct (dict_get x positions) as [p|] eqn:Hx; simpl in H; [|discriminate].
    apply IH in H. destruct H as (Hnd & Hin & Hout). repeat split.
    + intros Hacc. apply Hnd. now apply NoDup_keys_dict_set.
    + intros s [->|Hs].
      * destruct (in_dec string_dec s symbols) as [Hs|Hs]; [now apply Hin|].
        exists p. split; [exact Hx|]. rewrite (Hout s Hs), dict_get_set.
        now rewrite String.eqb_refl.
      * now apply Hin.
    + intros s Hs. rewrite Hout by tauto. rewrite dict_get_set.
      destruct (String.eqb_spec s x) as [->|]; [exfalso; apply Hs; auto | reflexivity].
Qed.

Lemma liquidation_pass_total (positions : dict position) (symbols : list string)
      (acc : dict order_details) :
  (forall s, In s symbols -> In s (keys positions)) ->
  exists orders, for_each (liquidation_step positions) symbols acc = Ok orders.
Proof.
  revert acc. induction symbols as [|x symbols IH]; simpl; intros acc H; [eauto|].
  unfold liquidation_step at 1, dict_item.
  destruct (dict_get x positions) as [p|] eqn:Hx; simpl.
  - apply IH. auto.
  - exfalso. apply dict_get_None_keys in Hx. apply Hx. auto.
Qed.

Lemma In_sell_off_symbols (target_symbols current_symbols : list string) (s : string) :
  In s (sell_off_symbols so target_symbols current_symbols) <->
  In s current_symbols /\ ~ In s target_symbols.
Proof.
  unfold sell_off_symbols. split.
  - intros H. apply (Permutation_in _ (Permutation_sym (iter_perm so _))) in H.
    apply filter_In in H. destruct H as [H1 H2]. split; [exact H1|].
    apply mem_false_not_In. now destruct (mem s target_symbols).
  - intros [H1 H2]. apply (Permutation_in _ (iter_perm so _)).
    apply filter_In. split; [exact H1|].
    apply mem_false_not_In in H2. now rewrite H2.
Qed.

Lemma rebalance_step_NoDup (positions : dict position) (amount : float)
      (orders : dict order_details) (kv : string * float) :
  NoDup (keys orders) -> NoDup (keys (rebalance_step positions amount orders kv)).
Proof.
  intros H. destruct kv as [k w]. unfold rebalance_step.
  destruct (PrimFloat.ltb 0 _); [now apply NoDup_keys_dict_set|].
  destruct (PrimFloat.ltb _ 0); [now apply NoDup_keys_dict_set | exact H].
Qed.

Lemma rebalance_step_other (positions : dict position) (amount : float)
      (orders : dict order_details) (k : string) (w : float) (s : string) :
  s <> k ->
  dict_get s (rebalance_step positions amount orders (k, w)) = dict_get s orders.
Proof.
  intros Hne. unfold rebalance_step.
  assert (Hset : forall o, dict_get s (dict_set k o orders) = dict_get s orders).
  { intros o. rewrite dict_get_set. destruct (String.eqb_spec s k); congruence. }
  destruct (PrimFloat.ltb 0 _); [apply Hset|].
  destruct (PrimFloat.ltb _ 0); [apply Hset | reflexivity].
Qed.

Lemma rebalance_pass_NoDup (positions : dict position) (amount : float)
      (target : dict float) (orders : dict order_details) :
  NoDup (keys orders) -> NoDup (keys (rebalance_pass positions amount target orders)).
Proof.
  unfold rebalance_pass. revert orders.
  induction target as [|kv target IH]; simpl; intros orders H; [exact H|].
  apply IH. now apply rebalance_step_NoDup.
Qed.

Lemma rebalance_pass_other (positions : dict position) (amount : float)
      (target : dict float) (orders : dict order_details) (s : string) :
  ~ In s (keys target) ->
  dict_get s (rebalance_pass positions amount target orders) = dict_get s orders.
Proof.
  unfold rebalance_pass. revert orders.
  induction target as [|[k w] target IH]; simpl; intros orders H; [reflexivity|].
  rewrite IH by tauto. apply rebalance_step_other. intros ->. tauto.
Qed.

Lemma rebalance_pass_target (positions : dict position) (amount : float)
      (target : dict float) (orders : dict order_details) (s : string) (w : float) :
  NoDup (keys target) -> In (s, w) target ->
  dict_get s (rebalance_pass positions amount target orders) =
  rebalance_entry positions amount s w (dict_get s orders).
Proof.
  revert orders.
  induction target as [|[k w'] target IH]; intros orders Hnd Hin; [contradiction|].
  change (rebalance_pass positions amount ((k, w') :: target) orders)
    with (rebalance_pass positions amount target
            (rebalance_step positions amount orders (k, w'))).
  inversion Hnd as [|? ? Hnotin Hnd']; subst.
  destruct Hin as [Heq|Hin].
  - injection Heq as -> ->.
    rewrite rebalance_pass_other by exact Hnotin.
    unfold rebalance_step, rebalance_entry.
    destruct (PrimFloat.ltb 0 _); [rewrite dict_get_set, String.eqb_refl; reflexivity|].
    destruct (PrimFloat.ltb _ 0); [rewrite dict_get_set, String.eqb_refl; reflexivity|].
    reflexivity.
  - rewrite IH by assumption. f_equal. apply rebalance_step_other.
    intros ->. apply Hnotin. change (In (fst (k, w)) (map fst target)). now apply in_map.
Qed.

Lemma price_order_Ok (ts : list string) (s : string) (d : order_details)
      (y : string * order_details) :
  price_order api b ts (s, d) = Ok y ->
  fst y = s /\
  (mem s ts = false -> snd y = d) /\
  (mem s ts = true -> exists q, snd y = set_qty d q).
Proof.
  unfold price_order. destruct (mem s ts).
  - destruct (get_latest_trade_price api b s) as [price|]; simpl; [|discriminate].
    destruct (py_div (value d) price) as [q|]; simpl; [|discriminate].
    destruct (get_asset_fractionable api b s) as [[|]|]; simpl; try discriminate.
    + intros H. injection H as <-. simpl.
      split; [reflexivity|]. split; [discriminate | eauto].
    + destruct (py_round q) as [n|]; simpl; [|discriminate].
      intros H. injection H as <-. simpl.
      split; [reflexivity|]. split; [discriminate | eauto].
  - intros H. injection H as <-. simpl.
    split; [reflexivity|]. split; [reflexivity | discriminate].
Qed.

Lemma pricing_pass_Ok (ts : list string) (orders priced : dict order_details) :
  pricing_pass api b ts orders = Ok priced ->
  keys priced = keys orders /\
  forall s,
    match dict_get s orders with
    | None => dict_get s priced = None
    | Some d =>
        if mem s ts then exists q, dict_get s priced = Some (set_qty d q)
        else dict_get s priced = Some d
    end.
Proof.
  unfold pricing_pass. intros H. apply map_result_Ok_Forall2 in H.
  induction H as [|[k d] [k' d'] orders priced Hx _ IH]; simpl.
  - split; [reflexivity | intros s; reflexivity].
  - apply price_order_Ok in Hx. simpl in Hx. destruct Hx as (-> & Hout & Hin).
    destruct IH as [IHk IHg]. split; [now rewrite IHk|].
    intros s. destruct (String.eqb_spec s k) as [->|Hne]; [|apply IHg].
    destruct (mem k ts); [destruct Hin as [q ->]; eauto | now rewrite Hout].
Qed.

End CalculatorFacts.

Section CalculatorClaims.

Context {B : Type}.
Variable so : set_order.
Variable api : Api B.
Variable b : B.

(** The three passes of a successful [calculate_orders], taken apart. *)
Lemma calculate_orders_Ok_inv (target : dict float) (positions : dict position)
      (amount : float) (orders : dict order_details) :
  calculate_orders so api b target positions amount = Ok orders ->
  exists liquidated,
    liquidation_pass positions (sell_off_symbols so (keys target) (keys positions))
      = Ok liquidated /\
    pricing_pass api b (keys target)
      (rebalance_pass positions amount target liquidated) = Ok orders.
Proof.
  unfold calculate_orders. intros H.
  destruct (liquidation_pass positions _) as [liquidated|e]; simpl in H; [|discriminate].
  eauto.
Qed.

Lemma calculate_orders_NoDup (target : dict float) (positions : dict position)
      (amount : float) (orders : dict order_details) :
  calculate_orders so api b target positions amount = Ok orders -> NoDup (keys orders).
Proof.
  intros H. apply calculate_orders_Ok_inv in H. destruct H as (liq & Hliq & Hprice).
  apply pricing_pass_Ok in Hprice. destruct Hprice as [-> _].
  apply rebalance_pass_NoDup.
  apply liquidation_pass_Ok in Hliq. apply Hliq. constructor.
Qed.

Lemma map_result_total {X Y : Type} (f : X -> result Y) (xs : list X) :
  (forall x, In x xs -> exists y, f x = Ok y) -> exists ys, map_result f xs = Ok ys.
Proof.
  induction xs as [|x xs IH]; simpl; intros H; [eauto|].
  destruct (H x) as [y ->]; [auto|]. destruct IH as [ys ->]; [auto|]. simpl. eauto.
Qed.

(** [calculate_orders] returns as soon as the broker can price every target
    symbol. *)
Lemma calculate_orders_returns (target : dict float) (positions : dict position)
      (amount : float) :
  (forall s d, In s (keys target) ->
               exists y, price_order api b (keys target) (s, d) = Ok y) ->
  exists orders, calculate_orders so api b target positions amount = Ok orders.
Proof.
  intros Hprice. unfold calculate_orders.
  destruct (liquidation_pass_total positions
              (sell_off_symbols so (keys target) (keys positions)) []) as [liq Hliq].
  { intros s Hs. now apply In_sell_off_symbols in Hs. }
  unfold liquidation_pass. rewrite Hliq. simpl.
  apply map_result_total. intros [s d] _.
  destruct (mem s (keys target)) eqn:Hmem.
  - apply Hprice. now apply mem_In.
  - unfold price_order. rewrite Hmem. eauto.
Qed.

(** With an empty target every held symbol is sold off, and nothing else is
    ordered. *)
Lemma calculate_orders_empty_target (positions : dict position) (amount : float) :
  exists orders,
    calculate_orders so api b [] positions amount = Ok orders /\
    NoDup (keys orders) /\
    (forall s, dict_get s orders = option_map full_liquidation (dict_get s positions)) /\
    (forall s o, In (s, o) orders -> side o = "sell").
Proof.
  destruct (liquidation_pass_total positions
              (sell_off_symbols so [] (keys positions)) []) as [liq Hliq].
  { intros s Hs. now apply In_sell_off_symbols in Hs. }
  assert (Hcalc : calculate_orders so api b [] positions amount = Ok liq).
  { unfold calculate_orders, liquidation_pass. simpl keys. rewrite Hliq. simpl.
    unfold pricing_pass. rewrite (map_result_all_Ok _ (fun x => x)).
    - now rewrite map_id.
    - intros [s d] _. reflexivity. }
  pose proof (liquidation_pass_Ok _ _ _ _ Hliq) as (Hnd & Hin & Hout).
  assert (Hget : forall s, dict_get s liq = option_map full_liquidation (dict_get s positions)).
  { intros s.
    destruct (in_dec string_dec s (sell_off_symbols so [] (keys positions))) as [Hs|Hs].
    - destruct (Hin s Hs) as (p & Hp & ->). now rewrite Hp.
    - rewrite (Hout s Hs). simpl.
      destruct (dict_get s positions) as [p|] eqn:Hp; [|reflexivity].
      exfalso. apply Hs. apply In_sell_off_symbols.
      split; [eapply dict_get_In_keys; eauto | intros []]. }
  exists liq. split; [exact Hcalc|]. split; [apply Hnd; constructor|].
  split; [exact Hget|].
  intros s o Hso. apply In_dict_get in Hso; [|apply Hnd; constructor].
  rewrite Hget in Hso. destruct (dict_get s positions); simpl in Hso; [|discriminate].
  injection Hso as <-. reflexivity.
Qed.

(** C3 (as the code behaves): a failed price lookup or fractionability
    lookup for one target symbol that has an order is not caught, so
    [calculate_orders] raises and returns no order for any symbol. *)
Theorem lookup_failure_aborts_calculate_orders
        (target : dict float) (positions : dict position) (amount : float)
        (s : string) (w : float) (e : exn) :
  NoDup (keys target) ->
  In (s, w) target ->
  PrimFloat.ltb 0%float (difference_of positions amount s w) = true \/
  PrimFloat.ltb (difference_of positions amount s w) 0%float = true ->
  get_latest_trade_price api b s = Raise e \/ get_asset_fractionable api b s = Raise e ->
  exists e', calculate_orders so api b target positions amount = Raise e'.
Proof.
  intros Hnd Hin Hdiff Hfail. unfold calculate_orders.
  destruct (liquidation_pass positions _) as [liq|e0] eqn:Hliq; simpl; [|eauto].
  set (orders := rebalance_pass positions amount target liq).
  assert (Hs : exists d, dict_get s orders = Some d).
  { unfold orders. rewrite (rebalance_pass_target _ _ _ _ _ _ Hnd Hin).
    unfold rebalance_entry. destruct Hdiff as [Hpos|Hneg].
    - rewrite Hpos. eauto.
    - destruct (PrimFloat.ltb 0 _); [eauto|]. rewrite Hneg. eauto. }
  destruct Hs as [d Hd]. apply dict_get_In in Hd.
  assert (Hmem : mem s (keys target) = true).
  { apply mem_In. change (In (fst (s, w)) (map fst target)). now apply in_map. }
  assert (Hraise : exists e1, price_order api b (keys target) (s, d) = Raise e1).
  { unfold price_order. rewrite Hmem. destruct Hfail as [Hp|Ha].
    - rewrite Hp. simpl. eauto.
    - destruct (get_latest_trade_price api b s) as [price|]; simpl; [|eauto].
      destruct (py_div (value d) price) as [q|]; simpl; [|eauto].
      rewrite Ha. simpl. eauto. }
  destruct Hraise as [e1 He1]. unfold pricing_pass.
  eapply map_result_Raise; eauto.
Qed.

(** C4: a symbol that is held but is not in the target gets exactly one
    order, the sale of the whole position at its market value and held
    quantity, and the pricing pass returns that entry as it is, without
    asking the broker. *)
Theorem held_symbol_absent_from_target_is_liquidated
        (target : dict float) (positions : dict position) (amount : float)
        (orders : dict order_details) (s : string) (p : position) :
  calculate_orders so api b target positions amount = Ok orders ->
  dict_get s positions = Some p ->
  ~ In s (keys target) ->
  entries_for s orders = [(s, full_liquidation p)] /\
  price_order api b (keys target) (s, full_liquidation p) = Ok (s, full_liquidation p).
Proof.
  intros Hcalc Hp Hnot.
  pose proof (calculate_orders_NoDup _ _ _ _ Hcalc) as Hnd.
  apply calculate_orders_Ok_inv in Hcalc. destruct Hcalc as (liq & Hliq & Hprice).
  assert (Hmem : mem s (keys target) = false) by now apply mem_false_not_In.
  split.
  - apply entries_for_unique; [exact Hnd|].
    apply pricing_pass_Ok in Hprice. destruct Hprice as [_ Hget]. specialize (Hget s).
    rewrite rebalance_pass_other in Hget by exact Hnot.
    apply liquidation_pass_Ok in Hliq. destruct Hliq as (_ & Hin & _).
    destruct (Hin s) as (p' & Hp' & Hs).
    { apply In_sell_off_symbols. split; [eapply dict_get_In_keys; eauto | exact Hnot]. }
    rewrite Hs, Hmem in Hget. congruence.
  - unfold price_order. now rewrite Hmem.
Qed.

(** C5: for a target symbol, with [difference = budget * weight - current
    value], where the current value is the market value of the held position
    and zero when the symbol is not held: a positive difference gives exactly
    one order, a buy of that value; a negative one exactly one order, a sell
    of the opposite value; a zero difference gives no order for the
    symbol. *)
Theorem target_symbol_order_follows_difference
        (target : dict float) (positions : dict position) (amount : float)
        (orders : dict order_details) (s : string) (w : float) (current_value : float) :
  calculate_orders so api b target positions amount = Ok orders ->
  NoDup (keys target) ->
  In (s, w) target ->
  current_value = match dict_get s positions with
                  | Some held => pos_market_value held
                  | None => 0%float
                  end ->
  let difference := PrimFloat.sub (PrimFloat.mul amount w) current_value in
  (PrimFloat.ltb 0%float difference = true ->
   exists q, entries_for s orders =
             [(s, {| side := "buy"; value := difference; qty := Some q |})]) /\
  (PrimFloat.ltb difference 0%float = true ->
   exists q, entries_for s orders =
             [(s, {| side := "sell"; value := PrimFloat.opp difference; qty := Some q |})]) /\
  (PrimFloat.eqb difference 0%float = true -> entries_for s orders = []).
Proof.
  intros Hcalc Hnd Hin Hcurrent difference.
  pose proof (calculate_orders_NoDup _ _ _ _ Hcalc) as Hndo.
  apply calculate_orders_Ok_inv in Hcalc. destruct Hcalc as (liq & Hliq & Hprice).
  assert (Hkey : In s (keys target)).
  { change (In (fst (s, w)) (map fst target)). now apply in_map. }
  assert (Hmem : mem s (keys target) = true) by now apply mem_In.
  apply pricing_pass_Ok in Hprice. destruct Hprice as [_ Hget]. specialize (Hget s).
  rewrite (rebalance_pass_target _ _ _ _ _ _ Hnd Hin), Hmem in Hget.
  apply liquidation_pass_Ok in Hliq. destruct Hliq as (_ & _ & Hout).
  rewrite (Hout s) in Hget
    by (intros Hs; apply In_sell_off_symbols in Hs; tauto).
  unfold rebalance_entry, difference_of, current_value_of in Hget.
  rewrite <- Hcurrent in Hget. fold difference in Hget. simpl in Hget.
  repeat split.
  - intros Hpos. rewrite Hpos in Hget. destruct Hget as [q Hq].
    exists q. now apply entries_for_unique.
  - intros Hneg. destruct (PrimFloat.ltb 0 difference) eqn:Hpos.
    + apply float_pos_not_neg in Hpos. congruence.
    + rewrite Hneg in Hget. destruct Hget as [q Hq].
      exists q. now apply entries_for_unique.
  - intros Hzero. apply float_eq0_not_pos_neg in Hzero. destruct Hzero as [H1 H2].
    rewrite H1, H2 in Hget. now apply entries_for_none.
Qed.

End CalculatorClaims.

(* ================================================================= *)
(** ** Facts about the allocation fetch *)

Lemma last_value_filtered_df (df : DataFrame) (symphony ticker : string) :
  last_value ticker (filtered_df df symphony) = last_row_percent symphony ticker (rows df).
Proof.
  unfold filtered_df. induction (rows df) as [|r rs IH]; simpl; [reflexivity|].
  destruct (String.eqb (Symphony r) symphony); simpl.
  - rewrite IH. rewrite (String.eqb_sym ticker). reflexivity.
  - rewrite IH. destruct (last_row_percent symphony ticker rs); reflexivity.
Qed.

Lemma get_target_allocations_valid (df : DataFrame) (symphony : string) :
  missing_columns df = [] -> has_nan df symphony = false ->
  get_target_allocations df symphony = ([], normalize (retained df symphony)).
Proof.
  unfold get_target_allocations, has_nan. intros -> ->. reflexivity.
Qed.

Lemma insert_all_nonempty {V : Type} (kvs : list (string * V)) (d : dict V) :
  d <> [] -> insert_all kvs d <> [].
Proof.
  revert d. induction kvs as [|[k v] kvs IH]; simpl; intros d H; [exact H|].
  apply IH. destruct d as [|[k' v'] d]; simpl; [congruence|].
  destruct (String.eqb k k'); discriminate.
Qed.

Lemma dict_of_items_nonempty {V : Type} (kvs : list (string * V)) :
  kvs <> [] -> dict_of_items kvs <> [].
Proof.
  destruct kvs as [|[k v] kvs]; [congruence|]. intros _.
  unfold dict_of_items. simpl. apply insert_all_nonempty. discriminate.
Qed.

Lemma dict_get_map_values {V W : Type} (g : V -> W) (k : string) (d : dict V) :
  dict_get k (map (fun kv => (fst kv, g (snd kv))) d) = option_map g (dict_get k d).
Proof.
  induction d as [|[k' v] d IH]; simpl; [reflexivity|].
  destruct (String.eqb k k'); [reflexivity | exact IH].
Qed.

Lemma normalize_Ok (target d : dict float) :
  NoDup (keys target) -> normalize target = Ok d ->
  d = map (fun kv => (fst kv, PrimFloat.div (snd kv) (py_sum (values target)))) target.
Proof.
  unfold normalize. intros Hnd H.
  destruct (map_result _ target) as [kvs|e] eqn:Hkvs; simpl in H; [|discriminate].
  injection H as <-.
  apply map_result_Ok_Forall2 in Hkvs.
  assert (Heq : kvs = map (fun kv => (fst kv,
                  PrimFloat.div (snd kv) (py_sum (values target)))) target).
  { clear Hnd. generalize dependent (py_sum (values target)). intros total Hkvs.
    induction Hkvs as [|x y xs ys Hx _ IH]; simpl; [reflexivity|].
    rewrite <- IH. f_equal. unfold py_div in Hx.
    destruct (PrimFloat.eqb total 0); simpl in Hx; [discriminate|]. congruence. }
  rewrite Heq. apply dict_of_items_id.
  unfold keys. rewrite map_map. simpl. exact Hnd.
Qed.

(** C10: when several rows of the selected symphony carry the same ticker,
    only the last row's percentage is retained before normalization, so the
    total is taken over one value per ticker and the returned mapping holds
    one weight per ticker, the last percentage over that total. *)
Theorem duplicate_ticker_last_row_wins
        (df : DataFrame) (symphony : string) (d : dict float) :
  missing_columns df = [] ->
  has_nan df symphony = false ->
  snd (get_target_allocations df symphony) = Ok d ->
  let target := retained df symphony in
  NoDup (keys target) /\
  (forall t, dict_get t target = last_row_percent symphony t (rows df)) /\
  NoDup (keys d) /\
  (forall t, dict_get t d =
             option_map (fun p => PrimFloat.div p (py_sum (values target)))
                        (last_row_percent symphony t (rows df))).
Proof.
  intros Hcols Hnan Hd target.
  rewrite (get_target_allocations_valid _ _ Hcols Hnan) in Hd. simpl in Hd.
  assert (Hnd : NoDup (keys target)) by apply dict_of_items_NoDup_keys.
  assert (Hget : forall t, dict_get t target = last_row_percent symphony t (rows df)).
  { intros t. unfold target, retained.
    now rewrite dict_get_dict_of_items, last_value_filtered_df. }
  apply (normalize_Ok _ _ Hnd) in Hd. fold target in Hd.
  repeat split; auto.
  - subst d. unfold keys. rewrite map_map. simpl. exact Hnd.
  - intros t. subst d.
    rewrite (dict_get_map_values (fun p => PrimFloat.div p (py_sum (values target)))).
    now rewrite Hget.
Qed.

(** C2 (as the code behaves): when the retained percentages sum to zero, the
    step returns the empty mapping only if no row passed the filter;
    otherwise nothing guards the division, the first quotient raises
    [ZeroDivisionError], and the error leaves [get_target_allocations]. *)
Theorem zero_total_is_not_guarded (df : DataFrame) (symphony : string) :
  missing_columns df = [] ->
  has_nan df symphony = false ->
  PrimFloat.eqb (py_sum (values (retained df symphony))) 0%float = true ->
  get_target_allocations df symphony =
  ([], match filtered_df df symphony with
       | [] => Ok []
       | _ :: _ => Raise ZeroDivisionError
       end).
Proof.
  intros Hcols Hnan Hzero.
  rewrite (get_target_allocations_valid _ _ Hcols Hnan). f_equal.
  unfold normalize, retained in *.
  destruct (filtered_df df symphony) as [|kv kvs] eqn:Hf; [reflexivity|].
  destruct (dict_of_items (kv :: kvs)) as [|[k p] rest] eqn:Ht.
  - exfalso. revert Ht. apply dict_of_items_nonempty. discriminate.
  - set (total := py_sum (values ((k, p) :: rest))) in *.
    cbv zeta. cbn [map_result snd]. unfold py_div at 1. rewrite Hzero. reflexivity.
Qed.

(* ================================================================= *)
(** ** Facts about the sequencer *)

Lemma NoDup_keys_filter {V : Type} (f : string * V -> bool) (d : dict V) :
  NoDup (keys d) -> NoDup (keys (filter f d)).
Proof.
  induction d as [|kv d IH]; simpl; intros H; [constructor|].
  inversion H as [|? ? Hnotin Hnd]; subst.
  destruct (f kv); simpl; [constructor|]; auto.
  intros Hin. apply Hnotin. unfold keys in *.
  apply in_map_iff in Hin. destruct Hin as (x & Hx & Hin).
  apply filter_In in Hin. apply in_map_iff. exists x. tauto.
Qed.

Lemma Permutation_two_filters {A : Type} (f g : A -> bool) (l : list A) :
  (forall x, In x l -> f x = negb (g x)) ->
  Permutation (filter f l ++ filter g l) l.
Proof.
  induction l as [|x l IH]; simpl; intros H; [constructor|].
  rewrite (H x) by auto. destruct (g x); simpl.
  - apply Permutation_sym, Permutation_cons_app, Permutation_sym. auto.
  - constructor. auto.
Qed.

(** C6: on a dict whose entries are all sells or buys,
    [separate_and_prioritize_orders] returns a partition: the two outputs
    together hold each input entry once, the first only sells, the second
    only buys. *)
Theorem separate_is_a_partition (orders sell_orders buy_orders : dict order_details) :
  NoDup (keys orders) ->
  (forall s o, In (s, o) orders -> side o = "sell" \/ side o = "buy") ->
  separate_and_prioritize_orders orders = (sell_orders, buy_orders) ->
  Permutation (sell_orders ++ buy_orders) orders /\
  NoDup (keys (sell_orders ++ buy_orders)) /\
  (forall s o, In (s, o) sell_orders -> side o = "sell") /\
  (forall s o, In (s, o) buy_orders -> side o = "buy").
Proof.
  intros Hnd Hside H. unfold separate_and_prioritize_orders in H.
  rewrite !dict_of_items_id in H by now apply NoDup_keys_filter.
  injection H as <- <-.
  assert (Hperm : Permutation
            (filter (fun kv => String.eqb (side (snd kv)) "sell") orders ++
             filter (fun kv => String.eqb (side (snd kv)) "buy") orders) orders).
  { apply Permutation_two_filters. intros [s o] Hin. simpl.
    destruct (Hside s o Hin) as [-> | ->]; reflexivity. }
  split; [exact Hperm|]. split.
  - unfold keys. eapply Permutation_NoDup; [|exact Hnd].
    apply Permutation_sym, Permutation_map, Hperm.
  - split; intros s o Hin; apply filter_In in Hin; destruct Hin as [_ Hin];
      simpl in Hin; now apply String.eqb_eq in Hin.
Qed.

(* ================================================================= *)
(** ** Facts about traces *)





(* ================================================================= *)
(** ** Facts about the executor *)

Section ExecutorFacts.

Context {B : Type}.
Variable api : Api B.

Lemma wait_loop_total (fuel : nat) (id : string) (start timeout : Z) (w : World B) :
  (Z.to_nat (start + timeout - now w) < fuel)%nat ->
  exists r, wait_loop api fuel id start timeout w = Some r.
Proof.
  revert w. induction fuel as [|fuel IH]; intros w Hfuel; [lia|]. simpl.
  destruct (Z.ltb_spec (now w - start) timeout) as [Hlt|Hge]; [|eauto].
  destruct (get_order_by_client_order_id api (broker w) id) as [[b' took] r].
  set (w2 := sleep retry_interval {| now := now w + Z.of_N took; broker := b' |}).
  assert (Hnext : exists r', wait_loop api fuel id start timeout w2 = Some r').
  { apply IH. unfold w2, sleep, retry_interval. simpl. lia. }
  destruct Hnext as [[[evs w3] filled] ->].
  destruct r as [status|e]; [|eauto].
  destruct (String.eqb status "filled"); [eauto|].
  destruct (terminal_failure status); eauto.
Qed.

Lemma wait_for_order_fill_total (fuel : nat) (id : string) (timeout : Z) (w : World B) :
  (Z.to_nat timeout < fuel)%nat ->
  exists r, wait_for_order_fill api fuel id timeout w = Some r.
Proof.
  intros H. unfold wait_for_order_fill. apply wait_loop_total.
  replace (now w + timeout - now w)%Z with timeout by lia. exact H.
Qed.

Lemma wait_loop_no_submit (fuel : nat) (id : string) (start timeout : Z) (w w' : World B)
      (evs : list event) (filled : bool) :
  wait_loop api fuel id start timeout w = Some (evs, w', filled) ->
  forall e, In e evs -> is_submit e = false.
Proof.
  revert w evs. induction fuel as [|fuel IH]; intros w evs H; [discriminate|].
  simpl in H.
  destruct (now w - start <? timeout)%Z.
  - destruct (get_order_by_client_order_id api (broker w) id) as [[b' took] r].
    destruct r as [status|e0].
    + destruct (String.eqb status "filled").
      { injection H as <- _ _. intros e [<-|[]]. reflexivity. }
      destruct (terminal_failure status).
      { injection H as <- _ _. intros e [<-|[<-|[]]]; reflexivity. }
      destruct (wait_loop api fuel id start timeout _) as [[[evs2 w2] f]|] eqn:Hrec;
        [|discriminate].
      injection H as <- <- <-. intros e [<-|[<-|Hin]]; try reflexivity.
      eapply IH; eauto.
    + destruct (wait_loop api fuel id start timeout _) as [[[evs2 w2] f]|] eqn:Hrec;
        [|discriminate].
      injection H as <- <- <-. intros e [<-|[<-|[<-|Hin]]]; try reflexivity.
      eapply IH; eauto.
  - injection H as <- _ _. intros e [<-|[]]. reflexivity.
Qed.

(** The three ways an order leaves [execute_order]. *)
Lemma execute_order_cases (fuel : nat) (action : string) (timeout : Z)
      (symbol : string) (details : order_details) (w w' : World B)
      (evs : list event) (r : result unit) :
  execute_order api fuel action timeout symbol details w = Some (evs, w', r) ->
  (qty details = None /\ evs = [] /\ r = Raise (KeyError "qty")) \/
  (exists q, qty details = Some q /\ num_gt0 q = false /\ evs = [] /\ w' = w /\ r = Ok tt) \/
  (exists q mid outcome,
      qty details = Some q /\ num_gt0 q = true /\ r = Ok tt /\
      evs = LogInfo (Attempting action q symbol) :: SubmitOrder symbol q action
              :: mid ++ [outcome] /\
      (forall e, In e mid -> is_submit e = false) /\
      resolves action symbol outcome = true).
Proof.
  unfold execute_order. intros H.
  destruct (qty details) as [q|]; [|injection H as <- _ <-; auto].
  right. destruct (num_gt0 q) eqn:Hq; [right | left].
  2:{ injection H as <- <- <-. exists q. auto. }
  assert (Hres : forall f, resolves action symbol
            (if f : bool then LogInfo (SuccessfullyExecuted action symbol q)
             else LogError (FailedToExecute action symbol)) = true).
  { intros [|]; simpl; now rewrite !String.eqb_refl. }
  unfold create_and_submit_order in H.
  destruct (submit_order api (broker w) symbol q action) as [b' [id|e]].
  - destruct (truthy (Some id)).
    + destruct (wait_for_order_fill api fuel id timeout _) as [[[evs2 w2] filled]|] eqn:Hw;
        [|discriminate].
      injection H as <- _ <-.
      exists q, evs2, (if filled then LogInfo (SuccessfullyExecuted action symbol q)
                       else LogError (FailedToExecute action symbol)).
      repeat split; auto.
      intros e He. unfold wait_for_order_fill in Hw.
      eapply wait_loop_no_submit; eauto.
    + injection H as <- _ <-. exists q, [], (LogInfo (SuccessfullyExecuted action symbol q)).
      repeat split; auto; [intros e [] | apply (Hres true)].
  - injection H as <- _ <-.
    exists q, [LogError (SubmitFailed symbol e)],
      (LogInfo (SuccessfullyExecuted action symbol q)).
    repeat split; auto; [intros e0 [<-|[]]; reflexivity | apply (Hres true)].
Qed.

Lemma execute_order_total (fuel : nat) (action : string) (timeout : Z)
      (symbol : string) (details : order_details) (w : World B) :
  (Z.to_nat timeout < fuel)%nat ->
  exists r, execute_order api fuel action timeout symbol details w = Some r.
Proof.
  intros Hfuel. unfold execute_order.
  destruct (qty details) as [q|]; [|eauto].
  destruct (num_gt0 q); [|eauto].
  destruct (create_and_submit_order api symbol q action w) as [[evs1 w1] [id|]]; [|eauto].
  destruct (truthy (Some id)); [|eauto].
  destruct (wait_for_order_fill_total fuel id timeout w1 Hfuel) as [[[evs2 w2] f] ->].
  eauto.
Qed.

Lemma execute_group_total (fuel : nat) (action : string) (timeout : Z)
      (orders : dict order_details) (w : World B) :
  (Z.to_nat timeout < fuel)%nat ->
  exists r, execute_group api fuel action timeout orders w = Some r.
Proof.
  intros Hfuel. revert w. induction orders as [|[s d] orders IH]; simpl; intros w; [eauto|].
  destruct (execute_order_total fuel action timeout s d w Hfuel) as [[[evs1 w1] r1] ->].
  destruct r1 as [u|e]; [|eauto].
  destruct (IH w1) as [[[evs2 w2] r2] ->]. eauto.
Qed.


(** A group whose orders all carry a quantity runs to its end, and every
    order with a positive quantity is submitted, whatever became of the
    orders before it. *)
Lemma execute_group_submits_all (fuel : nat) (action : string) (timeout : Z)
      (orders : dict order_details) (w w' : World B) (evs : list event) (r : result unit) :
  (forall s d, In (s, d) orders -> qty d <> None) ->
  execute_group api fuel action timeout orders w = Some (evs, w', r) ->
  r = Ok tt /\
  forall s d q, In (s, d) orders -> qty d = Some q -> num_gt0 q = true ->
                In (SubmitOrder s q action) evs.
Proof.
  revert w w' evs r.
  induction orders as [|[s d] orders IH]; simpl; intros w w' evs r Hqty H.
  - injection H as <- _ <-. split; [reflexivity | intros ? ? ? []].
  - destruct (execute_order api fuel action timeout s d w) as [[[evs1 w1] r1]|] eqn:H1;
      [|discriminate].
    apply execute_order_cases in H1.
    assert (Hd : qty d <> None) by (apply (Hqty s); auto).
    destruct H1 as [(Hnone & _)|H1]; [congruence|].
    assert (Hr1 : r1 = Ok tt) by
      (destruct H1 as [(q & _ & _ & _ & _ & ->)|(q & mid & out & _ & _ & -> & _)]; reflexivity).
    subst r1.
    destruct (execute_group api fuel action timeout orders w1) as [[[evs2 w2] r2]|] eqn:H2;
      [|discriminate].
    injection H as <- <- <-.
    destruct (IH w1 w2 evs2 r2) as [-> Hrest]; [intros; eapply Hqty; eauto | exact H2 |].
    split; [reflexivity|].
    intros s' d' q' [Heq|Hin] Hq' Hpos; rewrite in_app_iff.
    + injection Heq as <- <-. left.
      destruct H1 as [(q & Hq & Hneg & _)|(q & mid & out & Hq & _ & _ & -> & _)].
      * congruence.
      * assert (q = q') by congruence. subst q. simpl. auto.
    + right. eapply Hrest; eauto.
Qed.

End ExecutorFacts.

Section ExecutorClaims.

Context {B : Type}.
Variable api : Api B.






Lemma wait_loop_times_out (fuel : nat) (id : string) (start timeout L : Z) (w : World B) :
  never_terminal api id ->
  (forall b, (poll_duration api b id <= L)%Z) ->
  (Z.to_nat (start + timeout - now w) < fuel)%nat ->
  exists polls w',
    wait_loop api fuel id start timeout w
      = Some (polls ++ [LogError (NotFilledWithinTimeout id)], w', false) /\
    (timeout <= now w' - start)%Z /\
    (now w' = now w \/ (now w' - start < timeout + retry_interval + L)%Z).
Proof.
  intros Hnever Hlat. revert w. induction fuel as [|fuel IH]; intros w Hfuel; [lia|].
  simpl. destruct (Z.ltb_spec (now w - start) timeout) as [Hlt|Hge].
  2:{ exists [], w. simpl. repeat split; auto. }
  pose proof (Hlat (broker w)) as Htook. pose proof (Hnever (broker w)) as Hstatus.
  unfold poll_duration, poll_answer in Htook, Hstatus.
  destruct (get_order_by_client_order_id api (broker w) id) as [[b' took] r].
  simpl in Htook, Hstatus.
  set (w2 := sleep retry_interval {| now := now w + Z.of_N took; broker := b' |}).
  destruct (IH w2) as (polls & w' & Hrec & Hlow & Hhigh).
  { unfold w2, sleep, retry_interval. simpl. lia. }
  rewrite Hrec.
  assert (Hbound : (now w' - start < timeout + retry_interval + L)%Z).
  { destruct Hhigh as [Heq|Hlt']; [|exact Hlt'].
    rewrite Heq. unfold w2, sleep, retry_interval. simpl. lia. }
  destruct r as [status|e].
  - destruct (Hstatus status eq_refl) as [-> ->].
    exists (GetOrder id :: Sleep retry_interval :: polls), w'. auto.
  - exists (GetOrder id :: LogError (StatusCheckError id e) :: Sleep retry_interval :: polls), w'.
    auto.
Qed.

(** C8 (as the code behaves): an order whose polled status never becomes
    filled, cancelled or expired is resolved as a timeout failure; the time
    spent polling is at least the timeout and less than the timeout plus one
    poll interval plus the longest status call. *)
Theorem unfilled_order_times_out
        (fuel : nat) (id : string) (timeout L : Z) (w : World B) :
  (0 <= timeout)%Z ->
  (Z.to_nat timeout < fuel)%nat ->
  never_terminal api id ->
  (forall b, (poll_duration api b id <= L)%Z) ->
  exists polls w',
    wait_for_order_fill api fuel id timeout w
      = Some (polls ++ [LogError (NotFilledWithinTimeout id)], w', false) /\
    (timeout <= now w' - now w < timeout + retry_interval + L)%Z.
Proof.
  intros Htimeout Hfuel Hnever Hlat. unfold wait_for_order_fill.
  destruct (wait_loop_times_out fuel id (now w) timeout L w Hnever Hlat)
    as (polls & w' & Hrun & Hlow & Hhigh).
  { replace (now w + timeout - now w)%Z with timeout by lia. exact Hfuel. }
  exists polls, w'. split; [exact Hrun|]. split; [exact Hlow|].
  destruct Hhigh as [Heq|Hlt]; [|exact Hlt].
  pose proof (Hlat (broker w)) as Hl. unfold poll_duration in Hl.
  unfold retry_interval. lia.
Qed.

(** C9 (as the code behaves): when the broker rejects a submission,
    [create_and_submit_order] logs the failure, the order is not polled, and
    the executor goes on with the rest of the group from the state the broker
    was left in, exactly as it would have run that rest alone. *)
Theorem failed_submission_is_logged_and_skipped
        (fuel : nat) (action : string) (timeout : Z) (symbol : string)
        (details : order_details) (rest : dict order_details) (w : World B)
        (q : num) (b' : B) (e : exn) :
  qty details = Some q ->
  num_gt0 q = true ->
  submit_order api (broker w) symbol q action = (b', Raise e) ->
  exists own,
    In (SubmitOrder symbol q action) own /\
    In (LogError (SubmitFailed symbol e)) own /\
    (forall id, ~ In (GetOrder id) own) /\
    execute_group api fuel action timeout ((symbol, details) :: rest) w =
    match execute_group api fuel action timeout rest {| now := now w; broker := b' |} with
    | Some (evs, w', r) => Some (own ++ evs, w', r)
    | None => None
    end.
Proof.
  intros Hq Hpos Hsubmit.
  exists [LogInfo (Attempting action q symbol); SubmitOrder symbol q action;
          LogError (SubmitFailed symbol e);
          LogInfo (SuccessfullyExecuted action symbol q)].
  split; [simpl; auto|]. split; [simpl; auto|]. split.
  - intros id [H|[H|[H|[H|[]]]]]; discriminate.
  - simpl. unfold execute_order, create_and_submit_order.
    rewrite Hq, Hpos, Hsubmit. simpl.
    destruct (execute_group api fuel action timeout rest _) as [[[evs w'] r]|]; reflexivity.
Qed.

End ExecutorClaims.

(* ================================================================= *)
(** ** Facts about the orchestrator *)

Lemma filter_all {A : Type} (f : A -> bool) (l : list A) :
  (forall x, In x l -> f x = true) -> filter f l = l.
Proof.
  induction l as [|x l IH]; simpl; intros H; [reflexivity|].
  rewrite (H x) by auto. f_equal. auto.
Qed.

Lemma filter_none {A : Type} (f : A -> bool) (l : list A) :
  (forall x, In x l -> f x = false) -> filter f l = [].
Proof.
  induction l as [|x l IH]; simpl; intros H; [reflexivity|].
  rewrite (H x) by auto. auto.
Qed.

Lemma get_target_allocations_logs (df : DataFrame) (symphony : string) (e : event) :
  In e (fst (get_target_allocations df symphony)) -> is_submit e = false.
Proof.
  unfold get_target_allocations.
  destruct (missing_columns df); [destruct (existsb _ _)|]; simpl; intros H.
  - destruct H as [<-|[]]. reflexivity.
  - contradiction.
  - destruct H as [<-|[]]. reflexivity.
Qed.

Lemma separate_all_sells (orders : dict order_details) :
  NoDup (keys orders) ->
  (forall s o, In (s, o) orders -> side o = "sell") ->
  separate_and_prioritize_orders orders = (orders, []).
Proof.
  intros Hnd Hsell. unfold separate_and_prioritize_orders.
  rewrite filter_all, filter_none.
  - now rewrite dict_of_items_id.
  - intros [s o] Hin. simpl. now rewrite (Hsell s o Hin).
  - intros [s o] Hin. simpl. now rewrite (Hsell s o Hin).
Qed.

Section OrchestratorClaims.

Context {B : Type}.
Variable so : set_order.
Variable api : Api B.

(** C1 (as the code behaves): an empty target does not stop the run.  With
    the market open, [calculate_orders] returns the full liquidation of every
    held position and the executor submits each of those sells that has a
    positive quantity; only a closed market ends the run with no order
    computed or placed. *)
Theorem empty_target_liquidates_unless_market_closed
        (fuel : nat) (config : Config) (df : DataFrame) (w : World B)
        (positions : list (string * position)) (equity : float) :
  snd (get_target_allocations df (symphony_to_trade config)) = Ok [] ->
  list_positions api (broker w) = Ok positions ->
  get_account_equity api (broker w) = Ok equity ->
  (Z.to_nat (timeout config) < fuel)%nat ->
  (get_clock_is_open api (broker w) = Ok false ->
   exists evs,
     hello_pubsub so api fuel config df w = Some (evs, w, Ok tt) /\
     forall e, In e evs -> is_submit e = false) /\
  (get_clock_is_open api (broker w) = Ok true ->
   exists orders evs w',
     calculate_orders so api (broker w) [] (dict_of_items positions)
       (PrimFloat.mul equity (cash_weight config)) = Ok orders /\
     (forall s, dict_get s orders =
                option_map full_liquidation (dict_get s (dict_of_items positions))) /\
     hello_pubsub so api fuel config df w = Some (evs, w', Ok tt) /\
     forall s p,
       dict_get s (dict_of_items positions) = Some p ->
       PrimFloat.ltb 0%float (pos_qty p) = true ->
       In (SubmitOrder s (PyFloat (pos_qty p)) "sell") evs).
Proof.
  intros Hfetch Hpos Hequity Hfuel.
  pose proof (get_target_allocations_logs df (symphony_to_trade config)) as Hlogs.
  unfold hello_pubsub, get_current_positions, calculate_target_investment, is_market_open.
  destruct (get_target_allocations df (symphony_to_trade config)) as [logs fetched].
  simpl in Hfetch, Hlogs. subst fetched. rewrite Hpos, Hequity. split; intros Hclock.
  - rewrite Hclock. simpl. eexists. split; [reflexivity|].
    intros e He. rewrite in_app_iff in He. destruct He as [He|[<-|[]]]; auto.
  - rewrite Hclock. simpl.
    destruct (calculate_orders_empty_target so api (broker w) (dict_of_items positions)
                (PrimFloat.mul equity (cash_weight config)))
      as (orders & Hcalc & Hnd & Hget & Hsell).
    rewrite Hcalc. cbn [bind]. rewrite (separate_all_sells orders Hnd Hsell).
    unfold execute_prioritized_orders.
    destruct (execute_group_total api fuel "sell" (timeout config) orders w Hfuel)
      as [[[evs1 w1] r1] Hrun].
    rewrite Hrun.
    assert (Hqty : forall s d, In (s, d) orders -> qty d <> None).
    { intros s d Hin. apply In_dict_get in Hin; [|exact Hnd]. rewrite Hget in Hin.
      destruct (dict_get s (dict_of_items positions)); simpl in Hin; [|discriminate].
      injection Hin as <-. discriminate. }
    destruct (execute_group_submits_all api _ _ _ _ _ _ _ _ Hqty Hrun) as [-> Hall].
    simpl. exists orders. eexists. eexists.
    split; [reflexivity|]. split; [exact Hget|]. split; [reflexivity|].
    intros s p Hp Hq. rewrite !in_app_iff. right. left. left.
    apply (Hall s (full_liquidation p)); [|reflexivity|exact Hq].
    apply dict_get_In. rewrite Hget, Hp. reflexivity.
Qed.

End OrchestratorClaims.

(* ================================================================= *)
(** ** The sample runs, checked *)

Ltac distinct_keys :=
  simpl; repeat (constructor; [simpl; intuition discriminate|]); constructor.

(** With the strategy name mistyped no row is selected, the target is
    empty, and the run sells the whole CCC position. *)
Lemma typo_in_strategy_name_sells_everything :
  get_target_allocations Sample.df "Alhpa" = ([], Ok []) /\
  hello_pubsub insertion_order Sample.api 10 Sample.config_with_typo Sample.df Sample.world
  = Some ([LogInfo (Attempting "sell" (PyFloat 5) "CCC");
           SubmitOrder "CCC" (PyFloat 5) "sell";
           GetOrder "id-CCC";
           LogInfo (SuccessfullyExecuted "sell" "CCC" (PyFloat 5));
           LogInfo RebalancingComplete],
          Sample.world, Ok tt).
Proof. split; vm_compute; reflexivity. Qed.

Lemma empty_target_liquidates_witness :
  snd (get_target_allocations Sample.df "Alhpa") = Ok [] /\
  list_positions Sample.api tt = Ok Sample.held /\
  get_account_equity Sample.api tt = Ok 1000%float /\
  (Z.to_nat 7 < 10)%nat /\
  get_clock_is_open Sample.api tt = Ok true /\
  exists evs w',
    hello_pubsub insertion_order Sample.api 10 Sample.config_with_typo Sample.df Sample.world
    = Some (evs, w', Ok tt) /\
    In (SubmitOrder "CCC" (PyFloat 5) "sell") evs.
Proof.
  assert (Hfuel : (Z.to_nat (timeout Sample.config_with_typo) < 10)%nat) by (simpl; lia).
  destruct (empty_target_liquidates_unless_market_closed
              insertion_order Sample.api 10 Sample.config_with_typo Sample.df Sample.world
              Sample.held 1000%float eq_refl eq_refl eq_refl Hfuel) as [_ Hopen].
  destruct (Hopen eq_refl) as (orders & evs & w' & _ & _ & Hrun & Hsubmitted).
  split; [reflexivity|]. split; [reflexivity|]. split; [reflexivity|].
  split; [simpl; lia|]. split; [reflexivity|].
  exists evs, w'. split; [exact Hrun|].
  apply (Hsubmitted "CCC" {| pos_qty := 5; pos_market_value := 500 |}); reflexivity.
Defined.

(** Percentages that are all zero reach the division: the total is zero and
    the first quotient raises. *)
Lemma zero_percentages_divide_by_zero :
  PrimFloat.eqb (py_sum (values (retained Sample.zero_df "Alpha"))) 0%float = true /\
  py_div 0%float (py_sum (values (retained Sample.zero_df "Alpha"))) = Raise ZeroDivisionError /\
  get_target_allocations Sample.zero_df "Alpha" = ([], Raise ZeroDivisionError).
Proof. repeat split; vm_compute; reflexivity. Qed.

Lemma zero_total_is_not_guarded_witness :
  missing_columns Sample.zero_df = [] /\
  has_nan Sample.zero_df "Alpha" = false /\
  PrimFloat.eqb (py_sum (values (retained Sample.zero_df "Alpha"))) 0%float = true /\
  get_target_allocations Sample.zero_df "Alpha" = ([], Raise ZeroDivisionError).
Proof.
  split; [reflexivity|]. split; [reflexivity|]. split; [reflexivity|].
  exact (zero_total_is_not_guarded Sample.zero_df "Alpha" eq_refl eq_refl eq_refl).
Defined.

(** One symbol without a latest trade: no order comes back, not even the
    ones for AAA and CCC, which the same broker prices and sells without
    trouble when BBB has a price. *)
Lemma one_missing_price_loses_every_order :
  get_latest_trade_price Sample.api_without_BBB_price tt "AAA" = Ok 8%float /\
  calculate_orders insertion_order Sample.api_without_BBB_price tt
    Sample.target Sample.positions 1000
  = Raise (BrokerError "no trade found for BBB").
Proof. split; vm_compute; reflexivity. Qed.

Lemma lookup_failure_aborts_witness :
  NoDup (keys Sample.target) /\
  In ("BBB", 0.25%float) Sample.target /\
  PrimFloat.ltb 0%float (difference_of Sample.positions 1000 "BBB" 0.25) = true /\
  get_latest_trade_price Sample.api_without_BBB_price tt "BBB"
  = Raise (BrokerError "no trade found for BBB") /\
  exists e', calculate_orders insertion_order Sample.api_without_BBB_price tt
               Sample.target Sample.positions 1000 = Raise e'.
Proof.
  assert (Hnd : NoDup (keys Sample.target)) by distinct_keys.
  assert (Hin : In ("BBB", 0.25%float) Sample.target) by (simpl; auto).
  split; [exact Hnd|]. split; [exact Hin|]. split; [reflexivity|]. split; [reflexivity|].
  apply (lookup_failure_aborts_calculate_orders insertion_order
           Sample.api_without_BBB_price tt Sample.target Sample.positions 1000
           "BBB" 0.25 (BrokerError "no trade found for BBB") Hnd Hin).
  - left. reflexivity.
  - left. reflexivity.
Defined.

Lemma held_symbol_absent_from_target_witness :
  calculate_orders insertion_order Sample.api tt Sample.target Sample.positions 1000
  = Ok Sample.orders /\
  dict_get "CCC" Sample.positions = Some {| pos_qty := 5; pos_market_value := 500 |} /\
  ~ In "CCC" (keys Sample.target) /\
  entries_for "CCC" Sample.orders
  = [("CCC", {| side := "sell"; value := 500; qty := Some (PyFloat 5) |})].
Proof.
  assert (Hnot : ~ In "CCC" (keys Sample.target)) by (simpl; intuition discriminate).
  split; [reflexivity|]. split; [reflexivity|]. split; [exact Hnot|].
  apply (held_symbol_absent_from_target_is_liquidated insertion_order Sample.api tt
           Sample.target Sample.positions 1000 Sample.orders "CCC"
           {| pos_qty := 5; pos_market_value := 500 |} eq_refl eq_refl Hnot).
Defined.

Lemma target_symbol_order_witness :
  NoDup (keys Sample.target) /\
  calculate_orders insertion_order Sample.api tt Sample.target
    (dict_of_items Scenario.held_above_target) 1000
  = Ok [("AAA", {| side := "sell"; value := 150; qty := Some (PyFloat 18.75) |});
        ("BBB", {| side := "buy"; value := 250; qty := Some (PyInt 83) |})] /\
  dict_get "AAA" (dict_of_items Scenario.held_above_target)
  = Some {| pos_qty := 100; pos_market_value := 900 |} /\
  dict_get "BBB" (dict_of_items Scenario.held_above_target) = None /\
  calculate_orders insertion_order Sample.api tt Sample.target
    (dict_of_items Scenario.held_at_target) 1000
  = Ok [("BBB", {| side := "buy"; value := 250; qty := Some (PyInt 83) |})] /\
  dict_get "AAA" (dict_of_items Scenario.held_at_target)
  = Some {| pos_qty := 100; pos_market_value := 750 |} /\
  (exists q,
      entries_for "AAA"
        [("AAA", {| side := "sell"; value := 150; qty := Some (PyFloat 18.75) |});
         ("BBB", {| side := "buy"; value := 250; qty := Some (PyInt 83) |})]
      = [("AAA", {| side := "sell"; value := 150; qty := Some q |})]) /\
  (exists q,
      entries_for "BBB"
        [("AAA", {| side := "sell"; value := 150; qty := Some (PyFloat 18.75) |});
         ("BBB", {| side := "buy"; value := 250; qty := Some (PyInt 83) |})]
      = [("BBB", {| side := "buy"; value := 250; qty := Some q |})]) /\
  entries_for "AAA" [("BBB", {| side := "buy"; value := 250; qty := Some (PyInt 83) |})]
  = [].
Proof.
  assert (Hnd : NoDup (keys Sample.target)) by distinct_keys.
  assert (HA : In ("AAA", 0.75%float) Sample.target) by (simpl; auto).
  assert (HB : In ("BBB", 0.25%float) Sample.target) by (simpl; auto).
  split; [exact Hnd|]. split; [reflexivity|]. split; [reflexivity|].
  split; [reflexivity|]. split; [reflexivity|]. split; [reflexivity|].
  split; [|split].
  - destruct (target_symbol_order_follows_difference insertion_order Sample.api tt
                Sample.target (dict_of_items Scenario.held_above_target) 1000 _
                "AAA" 0.75 900 eq_refl Hnd HA eq_refl) as (_ & Hsell & _).
    apply Hsell. reflexivity.
  - destruct (target_symbol_order_follows_difference insertion_order Sample.api tt
                Sample.target (dict_of_items Scenario.held_above_target) 1000 _
                "BBB" 0.25 0 eq_refl Hnd HB eq_refl) as (Hbuy & _).
    apply Hbuy. reflexivity.
  - destruct (target_symbol_order_follows_difference insertion_order Sample.api tt
                Sample.target (dict_of_items Scenario.held_at_target) 1000 _
                "AAA" 0.75 750 eq_refl Hnd HA eq_refl) as (_ & _ & Hnone).
    apply Hnone. reflexivity.
Defined.

Lemma separate_is_a_partition_witness :
  NoDup (keys Sample.orders) /\
  (forall s o, In (s, o) Sample.orders -> side o = "sell" \/ side o = "buy") /\
  separate_and_prioritize_orders Sample.orders = (Sample.sell_orders, Sample.buy_orders) /\
  Permutation (Sample.sell_orders ++ Sample.buy_orders) Sample.orders.
Proof.
  assert (Hnd : NoDup (keys Sample.orders)) by distinct_keys.
  assert (Hside : forall s o, In (s, o) Sample.orders -> side o = "sell" \/ side o = "buy").
  { intros s o [H|[H|[H|[]]]]; injection H as _ <-; simpl; auto. }
  split; [exact Hnd|]. split; [exact Hside|]. split; [reflexivity|].
  apply (separate_is_a_partition Sample.orders Sample.sell_orders Sample.buy_orders
           Hnd Hside eq_refl).
Defined.


(** A status call that takes five seconds: with a timeout of one second the
    loop polls once, sleeps, and gives up after eight seconds, more than the
    timeout plus one poll interval. *)
Lemma slow_status_call_overruns_the_bound :
  never_terminal (Sample.api_never_filling 5) "id-BBB" /\
  wait_for_order_fill (Sample.api_never_filling 5) 10 "id-BBB" 1 Sample.world
  = Some ([GetOrder "id-BBB"; Sleep 3; LogError (NotFilledWithinTimeout "id-BBB")],
          {| now := 8; broker := tt |}, false) /\
  (1 + retry_interval < 8 - now Sample.world)%Z.
Proof.
  split; [|split; vm_compute; reflexivity].
  intros b status H. injection H as <-. split; reflexivity.
Qed.

Lemma unfilled_order_times_out_witness :
  (0 <= 7)%Z /\
  (Z.to_nat 7 < 10)%nat /\
  never_terminal (Sample.api_never_filling 0) "id-BBB" /\
  (forall b, (poll_duration (Sample.api_never_filling 0) b "id-BBB" <= 0)%Z) /\
  exists polls w',
    wait_for_order_fill (Sample.api_never_filling 0) 10 "id-BBB" 7 Sample.world
    = Some (polls ++ [LogError (NotFilledWithinTimeout "id-BBB")], w', false) /\
    (7 <= now w' - now Sample.world < 7 + retry_interval + 0)%Z.
Proof.
  assert (Htimeout : (0 <= 7)%Z) by lia.
  assert (Hfuel : (Z.to_nat 7 < 10)%nat) by (simpl; lia).
  assert (Hnever : never_terminal (Sample.api_never_filling 0) "id-BBB").
  { intros b status H. injection H as <-. split; reflexivity. }
  assert (Hlat : forall b, (poll_duration (Sample.api_never_filling 0) b "id-BBB" <= 0)%Z).
  { intros b. unfold poll_duration. simpl. lia. }
  split; [exact Htimeout|]. split; [exact Hfuel|]. split; [exact Hnever|].
  split; [exact Hlat|].
  exact (unfilled_order_times_out (Sample.api_never_filling 0) 10 "id-BBB" 7 0
           Sample.world Htimeout Hfuel Hnever Hlat).
Defined.

(** The broker rejects the AAA order: the error is logged, and then the
    executor closes the order with the record of a successful execution;
    nothing marks it as a failed submission.  BBB is submitted next. *)
Lemma rejected_order_is_closed_as_executed :
  submit_order Sample.api_rejecting_AAA tt "AAA" (PyFloat 93.75) "buy"
  = (tt, Raise (BrokerError "insufficient buying power")) /\
  execute_group Sample.api_rejecting_AAA 10 "buy" 7 Sample.buy_orders Sample.world
  = Some ([LogInfo (Attempting "buy" (PyFloat 93.75) "AAA");
           SubmitOrder "AAA" (PyFloat 93.75) "buy";
           LogError (SubmitFailed "AAA" (BrokerError "insufficient buying power"));
           LogInfo (SuccessfullyExecuted "buy" "AAA" (PyFloat 93.75));
           LogInfo (Attempting "buy" (PyInt 83) "BBB");
           SubmitOrder "BBB" (PyInt 83) "buy";
           GetOrder "id-BBB";
           LogInfo (SuccessfullyExecuted "buy" "BBB" (PyInt 83))],
          Sample.world, Ok tt).
Proof. split; vm_compute; reflexivity. Qed.

Lemma failed_submission_witness :
  qty {| side := "buy"; value := 750; qty := Some (PyFloat 93.75) |}
  = Some (PyFloat 93.75) /\
  num_gt0 (PyFloat 93.75) = true /\
  submit_order Sample.api_rejecting_AAA (broker Sample.world) "AAA" (PyFloat 93.75) "buy"
  = (tt, Raise (BrokerError "insufficient buying power")) /\
  exists own,
    In (SubmitOrder "AAA" (PyFloat 93.75) "buy") own /\
    In (LogError (SubmitFailed "AAA" (BrokerError "insufficient buying power"))) own /\
    (forall id, ~ In (GetOrder id) own) /\
    execute_group Sample.api_rejecting_AAA 10 "buy" 7 Sample.buy_orders Sample.world =
    match execute_group Sample.api_rejecting_AAA 10 "buy" 7
            [("BBB", {| side := "buy"; value := 250; qty := Some (PyInt 83) |})]
            {| now := now Sample.world; broker := tt |} with
    | Some (evs, w', r) => Some (own ++ evs, w', r)
    | None => None
    end.
Proof.
  split; [reflexivity|]. split; [reflexivity|]. split; [reflexivity|].
  exact (failed_submission_is_logged_and_skipped Sample.api_rejecting_AAA 10 "buy" 7 "AAA"
           {| side := "buy"; value := 750; qty := Some (PyFloat 93.75) |}
           [("BBB", {| side := "buy"; value := 250; qty := Some (PyInt 83) |})]
           Sample.world (PyFloat 93.75) tt (BrokerError "insufficient buying power")
           eq_refl eq_refl eq_refl).
Defined.

Lemma duplicate_ticker_witness :
  missing_columns Sample.df = [] /\
  has_nan Sample.df "Alpha" = false /\
  snd (get_target_allocations Sample.df "Alpha") = Ok Sample.target /\
  dict_get "AAA" (retained Sample.df "Alpha") = Some 75%float /\
  NoDup (keys Sample.target) /\
  dict_get "AAA" Sample.target = Some (PrimFloat.div 75 100).
Proof.
  destruct (duplicate_ticker_last_row_wins Sample.df "Alpha" Sample.target
              eq_refl eq_refl eq_refl) as (_ & Hretained & Hnd & Hweights).
  split; [reflexivity|]. split; [reflexivity|]. split; [reflexivity|].
  split; [exact (Hretained "AAA")|]. split; [exact Hnd | exact (Hweights "AAA")].
Defined.

(* ================================================================= *)
(** * Further properties *)

(** ** The allocation fetch *)

(** X1: when the header lacks one of the three expected columns, the fetch
    logs the missing columns, that one among them, and returns the empty
    mapping, whatever the rows hold. *)
Theorem missing_column_gives_empty_target
        (df : DataFrame) (symphony column : string) :
  In column expected_columns ->
  ~ In column (columns df) ->
  exists missing,
    In column missing /\
    get_target_allocations df symphony = ([LogError (MissingColumns missing)], Ok []).
Proof.
  intros Hexp Habs.
  assert (Hin : In column (missing_columns df)).
  { unfold missing_columns. apply filter_In. split; [exact Hexp|].
    apply mem_false_not_In in Habs. now rewrite Habs. }
  unfold get_target_allocations. destruct (missing_columns df) as [|c cs] eqn:Hm.
  - contradiction.
  - exists (c :: cs). split; [exact Hin | reflexivity].
Qed.

(** X2: one percentage of the selected symphony that is not a number (text,
    or NaN) makes the fetch return the empty mapping for the whole
    symphony; the row is not skipped. *)
Theorem non_numeric_percentage_voids_target
        (df : DataFrame) (symphony : string) (r : row) :
  missing_columns df = [] ->
  In r (rows df) ->
  Symphony r = symphony ->
  PrimFloat.is_nan (to_numeric (Ticker_Allocation_Percent r)) = true ->
  get_target_allocations df symphony = ([LogError NaNValues], Ok []).
Proof.
  intros Hcols Hin Hsym Hnan. unfold get_target_allocations. rewrite Hcols.
  assert (Hex : existsb (fun kv => PrimFloat.is_nan (snd kv)) (filtered_df df symphony) = true).
  { apply existsb_exists.
    exists (Ticker r, to_numeric (Ticker_Allocation_Percent r)). split; [|exact Hnan].
    unfold filtered_df.
    apply (in_map (fun r => (Ticker r, to_numeric (Ticker_Allocation_Percent r)))).
    apply filter_In. split; [exact Hin|]. rewrite Hsym. apply String.eqb_refl. }
  now rewrite Hex.
Qed.

Lemma get_target_allocations_NoDup (df : DataFrame) (symphony : string) (target : dict float) :
  snd (get_target_allocations df symphony) = Ok target -> NoDup (keys target).
Proof.
  unfold get_target_allocations.
  destruct (missing_columns df); [|simpl; intros H; injection H as <-; constructor].
  destruct (existsb _ _); simpl; [intros H; injection H as <-; constructor|].
  unfold normalize. destruct (map_result _ _) as [kvs|e]; simpl; [|discriminate].
  intros H. injection H as <-. apply dict_of_items_NoDup_keys.
Qed.

(** ** The order calculator *)

Lemma float_neg_opp_pos (d : float) :
  PrimFloat.ltb d 0%float = true -> PrimFloat.ltb 0%float (PrimFloat.opp d) = true.
Proof.
  rewrite !FloatAxioms.ltb_spec, FloatAxioms.opp_spec.
  change (Prim2SF 0%float) with (S754_zero false).
  destruct (Prim2SF d) as [s| [|] | |[|] m e]; cbv; congruence.
Qed.

Lemma Forall2_In_right {X Y : Type} (R : X -> Y -> Prop) (xs : list X) (ys : list Y) (y : Y) :
  Forall2 R xs ys -> In y ys -> exists x, In x xs /\ R x y.
Proof.
  induction 1 as [|x y' xs ys Hxy _ IH]; simpl; [contradiction|].
  intros [->|Hin]; [eauto|]. destruct (IH Hin) as (x0 & Hx0 & HR). eauto.
Qed.

Section CalculatorMore.

Context {B : Type}.
Variable so : set_order.
Variable api : Api B.
Variable b : B.

(** How a target symbol's entry gets its quantity. *)
Lemma price_order_target_inv (ts : list string) (s : string) (d : order_details)
      (y : string * order_details) :
  mem s ts = true ->
  price_order api b ts (s, d) = Ok y ->
  exists price fractionable,
    get_latest_trade_price api b s = Ok price /\
    PrimFloat.eqb price 0%float = false /\
    get_asset_fractionable api b s = Ok fractionable /\
    if fractionable : bool
    then y = (s, set_qty d (PyFloat (PrimFloat.div (value d) price)))
    else exists n, py_round (PrimFloat.div (value d) price) = Ok n /\
                   y = (s, set_qty d (PyInt n)).
Proof.
  intros Hmem. unfold price_order. rewrite Hmem.
  destruct (get_latest_trade_price api b s) as [price|]; simpl; [|discriminate].
  unfold py_div. destruct (PrimFloat.eqb price 0%float) eqn:Hzero; simpl; [discriminate|].
  destruct (get_asset_fractionable api b s) as [[|]|]; simpl; try discriminate.
  - intros H. injection H as <-. exists price, true. auto.
  - destruct (py_round _) as [n|] eqn:Hround; simpl; [|discriminate].
    intros H. injection H as <-. exists price, false. repeat split; auto. eauto.
Qed.

(** Where an entry of the result comes from: the sale of a held position
    outside the target, or the priced order of a target symbol. *)
Lemma calculate_orders_entry (target : dict float) (positions : dict position)
      (amount : float) (orders : dict order_details) (s : string) (o : order_details) :
  calculate_orders so api b target positions amount = Ok orders ->
  NoDup (keys target) ->
  In (s, o) orders ->
  (~ In s (keys target) /\
   exists p, dict_get s positions = Some p /\ o = full_liquidation p) \/
  (exists w d,
      In (s, w) target /\
      rebalance_entry positions amount s w None = Some d /\
      price_order api b (keys target) (s, d) = Ok (s, o)).
Proof.
  intros Hcalc Hnd Hin.
  apply calculate_orders_Ok_inv in Hcalc. destruct Hcalc as (liq & Hliq & Hprice).
  pose proof (liquidation_pass_Ok _ _ _ _ Hliq) as (Hliqnd & Hsold & Hkept).
  unfold pricing_pass in Hprice. apply map_result_Ok_Forall2 in Hprice.
  destruct (Forall2_In_right _ _ _ _ Hprice Hin) as ([s' d] & Hpre & Hpriced).
  pose proof (price_order_Ok _ _ _ _ _ _ Hpriced) as (Hfst & Hout & _).
  simpl in Hfst. subst s'.
  apply In_dict_get in Hpre;
    [|apply rebalance_pass_NoDup, Hliqnd; constructor].
  destruct (in_dec string_dec s (keys target)) as [Hkey|Hkey].
  - right. unfold keys in Hkey. apply in_map_iff in Hkey.
    destruct Hkey as ([s0 w] & Hs0 & Hw). simpl in Hs0. subst s0.
    exists w, d. split; [exact Hw|]. split; [|exact Hpriced].
    rewrite (rebalance_pass_target _ _ _ _ _ _ Hnd Hw) in Hpre.
    rewrite (Hkept s) in Hpre; [exact Hpre|].
    intros Hs. apply In_sell_off_symbols in Hs. destruct Hs as [_ Hs]. apply Hs.
    change (In (fst (s, w)) (map fst target)). now apply in_map.
  - left. split; [exact Hkey|].
    rewrite rebalance_pass_other in Hpre by exact Hkey.
    destruct (in_dec string_dec s (sell_off_symbols so (keys target) (keys positions)))
      as [Hs|Hs].
    + destruct (Hsold s Hs) as (p & Hp & Hsale). exists p. split; [exact Hp|].
      assert (Hmem : mem s (keys target) = false) by now apply mem_false_not_In.
      specialize (Hout Hmem). simpl in Hout. congruence.
    + rewrite (Hkept s Hs) in Hpre. discriminate.
Qed.

(** X6: what [calculate_orders] returns is a sound order book: at most one
    order per symbol, each for a symbol that is held or in the target, each
    a sell or a buy, and each with a quantity. *)
Theorem calculated_orders_are_well_formed
        (target : dict float) (positions : dict position) (amount : float)
        (orders : dict order_details) :
  calculate_orders so api b target positions amount = Ok orders ->
  NoDup (keys target) ->
  NoDup (keys orders) /\
  forall s o, In (s, o) orders ->
    (In s (keys positions) \/ In s (keys target)) /\
    (side o = "sell" \/ side o = "buy") /\
    exists q, qty o = Some q.
Proof.
  intros Hcalc Hnd. split; [eapply calculate_orders_NoDup; eauto|].
  intros s o Hin.
  destruct (calculate_orders_entry _ _ _ _ _ _ Hcalc Hnd Hin)
    as [(_ & p & Hp & ->)|(w & d & Hw & Hd & Hpriced)].
  - split; [left; eapply dict_get_In_keys; eauto|]. split; [left; reflexivity|].
    simpl. eauto.
  - assert (Hkey : In s (keys target)).
    { change (In (fst (s, w)) (map fst target)). now apply in_map. }
    split; [right; exact Hkey|].
    apply price_order_Ok in Hpriced. destruct Hpriced as (_ & _ & Hq).
    destruct Hq as [q Hq]; [now apply mem_In|]. simpl in Hq. subst o.
    split; [|simpl; eauto].
    unfold rebalance_entry in Hd.
    destruct (PrimFloat.ltb 0%float _); [injection Hd as <-; simpl; auto|].
    destruct (PrimFloat.ltb _ 0%float); [injection Hd as <-; simpl; auto | discriminate].
Qed.

(** X7: the order of a target symbol always has a value greater than zero
    (a liquidation order has the position's market value, whatever its
    sign). *)
Theorem target_order_value_is_positive
        (target : dict float) (positions : dict position) (amount : float)
        (orders : dict order_details) (s : string) (o : order_details) :
  calculate_orders so api b target positions amount = Ok orders ->
  NoDup (keys target) ->
  In (s, o) orders ->
  In s (keys target) ->
  PrimFloat.ltb 0%float (value o) = true.
Proof.
  intros Hcalc Hnd Hin Hkey.
  destruct (calculate_orders_entry _ _ _ _ _ _ Hcalc Hnd Hin)
    as [(Hnot & _)|(w & d & Hw & Hd & Hpriced)]; [contradiction|].
  apply price_order_Ok in Hpriced. destruct Hpriced as (_ & _ & Hq).
  destruct Hq as [q Hq]; [now apply mem_In|]. simpl in Hq. subst o. simpl.
  unfold rebalance_entry in Hd.
  destruct (PrimFloat.ltb 0%float _) eqn:Hpos; [injection Hd as <-; exact Hpos|].
  destruct (PrimFloat.ltb _ 0%float) eqn:Hneg; [|discriminate].
  injection Hd as <-. simpl. now apply float_neg_opp_pos.
Qed.

(** X8: the quantity of a target symbol's order is its value divided by the
    latest price, which is not zero: kept as it is when the asset is
    fractionable, rounded to an integer by [round] otherwise. *)
Theorem target_order_quantity_comes_from_price
        (target : dict float) (positions : dict position) (amount : float)
        (orders : dict order_details) (s : string) (o : order_details) :
  calculate_orders so api b target positions amount = Ok orders ->
  NoDup (keys target) ->
  In (s, o) orders ->
  In s (keys target) ->
  exists price fractionable,
    get_latest_trade_price api b s = Ok price /\
    PrimFloat.eqb price 0%float = false /\
    get_asset_fractionable api b s = Ok fractionable /\
    if fractionable : bool
    then qty o = Some (PyFloat (PrimFloat.div (value o) price))
    else exists n, py_round (PrimFloat.div (value o) price) = Ok n /\
                   qty o = Some (PyInt n).
Proof.
  intros Hcalc Hnd Hin Hkey.
  destruct (calculate_orders_entry _ _ _ _ _ _ Hcalc Hnd Hin)
    as [(Hnot & _)|(w & d & Hw & Hd & Hpriced)]; [contradiction|].
  apply price_order_target_inv in Hpriced; [|now apply mem_In].
  destruct Hpriced as (price & frac & Hprice & Hnz & Hfrac & Hq).
  exists price, frac. repeat split; auto.
  destruct frac.
  - injection Hq as ->. reflexivity.
  - destruct Hq as (n & Hround & Hq). injection Hq as ->. simpl. eauto.
Qed.

(** X9: a latest price of zero for a target symbol that needs an order makes
    [calculate_orders] raise: the division of the value by the price is not
    guarded, and no order comes back for any symbol. *)
Theorem zero_price_aborts_calculate_orders
        (target : dict float) (positions : dict position) (amount : float)
        (s : string) (w price : float) :
  NoDup (keys target) ->
  In (s, w) target ->
  PrimFloat.ltb 0%float (difference_of positions amount s w) = true \/
  PrimFloat.ltb (difference_of positions amount s w) 0%float = true ->
  get_latest_trade_price api b s = Ok price ->
  PrimFloat.eqb price 0%float = true ->
  exists e, calculate_orders so api b target positions amount = Raise e.
Proof.
  intros Hnd Hin Hdiff Hprice Hzero. unfold calculate_orders.
  destruct (liquidation_pass positions _) as [liq|e0] eqn:Hliq; simpl; [|eauto].
  assert (Hs : exists d, dict_get s (rebalance_pass positions amount target liq) = Some d).
  { rewrite (rebalance_pass_target _ _ _ _ _ _ Hnd Hin).
    unfold rebalance_entry. destruct Hdiff as [Hpos|Hneg].
    - rewrite Hpos. eauto.
    - destruct (PrimFloat.ltb 0 _); [eauto|]. rewrite Hneg. eauto. }
  destruct Hs as [d Hd]. apply dict_get_In in Hd.
  unfold pricing_pass. eapply map_result_Raise; [exact Hd|].
  unfold price_order.
  assert (Hmem : mem s (keys target) = true).
  { apply mem_In. change (In (fst (s, w)) (map fst target)). now apply in_map. }
  rewrite Hmem, Hprice. simpl. unfold py_div. rewrite Hzero. reflexivity.
Qed.

End CalculatorMore.

(** ** The sequencer *)

Lemma dict_get_filter {V : Type} (f : string * V -> bool) (s : string) (d : dict V) :
  NoDup (keys d) ->
  dict_get s (filter f d) =
  match dict_get s d with
  | Some v => if f (s, v) then Some v else None
  | None => None
  end.
Proof.
  induction d as [|[k v] d IH]; simpl; intros Hnd; [reflexivity|].
  inversion Hnd as [|? ? Hnotin Hnd']; subst.
  destruct (String.eqb_spec s k) as [->|Hne].
  - destruct (f (k, v)) eqn:Hf; simpl.
    + now rewrite String.eqb_refl.
    + rewrite IH by exact Hnd'.
      assert (Hnone : dict_get k d = None) by now apply dict_get_None_keys.
      now rewrite Hnone.
  - destruct (f (k, v)); simpl; [|now apply IH].
    destruct (String.eqb_spec s k); [congruence | now apply IH].
Qed.

Lemma separate_filters (orders : dict order_details) :
  NoDup (keys orders) ->
  separate_and_prioritize_orders orders =
  (filter (fun kv => String.eqb (side (snd kv)) "sell") orders,
   filter (fun kv => String.eqb (side (snd kv)) "buy") orders).
Proof.
  intros Hnd. unfold separate_and_prioritize_orders.
  now rewrite !dict_of_items_id by now apply NoDup_keys_filter.
Qed.

(** X10: looking a symbol up in the outputs of the sequencer: [sell_orders]
    holds exactly the entries of [orders] whose side is sell, [buy_orders]
    those whose side is buy, each unchanged; an entry with any other side is
    in neither. *)
Theorem separate_keeps_each_entry_under_its_side
        (orders sell_orders buy_orders : dict order_details) :
  NoDup (keys orders) ->
  separate_and_prioritize_orders orders = (sell_orders, buy_orders) ->
  forall s o,
    (dict_get s sell_orders = Some o <-> dict_get s orders = Some o /\ side o = "sell") /\
    (dict_get s buy_orders = Some o <-> dict_get s orders = Some o /\ side o = "buy") /\
    (dict_get s orders = Some o -> side o <> "sell" -> side o <> "buy" ->
     dict_get s sell_orders = None /\ dict_get s buy_orders = None).
Proof.
  intros Hnd Hsep s o. rewrite (separate_filters _ Hnd) in Hsep.
  injection Hsep as <- <-. rewrite !dict_get_filter by exact Hnd. simpl.
  destruct (dict_get s orders) as [o'|]; simpl.
  - destruct (String.eqb_spec (side o') "sell") as [Hs|Hs];
      destruct (String.eqb_spec (side o') "buy") as [Hb|Hb];
      repeat split; try tauto; try congruence;
        try (intros H; injection H as <-; tauto);
        try (intros [H _]; congruence);
        try (intros [H H']; injection H as <-; congruence);
        try (intros H1 H2 H3; injection H1 as <-; tauto).
  - repeat split; try discriminate; try tauto; intros [H _]; discriminate.
Qed.

(** ** The fill monitor *)

Section MonitorMore.

Context {B : Type}.
Variable api : Api B.

Lemma wait_loop_elapsed (fuel : nat) (id : string) (start timeout L : Z)
      (w w' : World B) (evs : list event) (filled : bool) :
  (forall b, (poll_duration api b id <= L)%Z) ->
  wait_loop api fuel id start timeout w = Some (evs, w', filled) ->
  (now w <= now w')%Z /\
  (now w' = now w \/ (now w' - start < timeout + retry_interval + L)%Z).
Proof.
  intros Hlat. revert w w' evs filled.
  induction fuel as [|fuel IH]; intros w w' evs filled H; [discriminate|].
  simpl in H. destruct (Z.ltb_spec (now w - start) timeout) as [Hlt|Hge].
  2:{ injection H as _ <- _. split; [lia | auto]. }
  pose proof (Hlat (broker w)) as Htook. unfold poll_duration in Htook.
  destruct (get_order_by_client_order_id api (broker w) id) as [[b' took] r].
  simpl in Htook. unfold retry_interval in *.
  assert (Hrec : forall evs2 w2 f,
             wait_loop api fuel id start timeout
               (sleep 3 {| now := now w + Z.of_N took; broker := b' |}) = Some (evs2, w2, f) ->
             w2 = w' ->
             (now w <= now w')%Z /\
             (now w' = now w \/ (now w' - start < timeout + 3 + L)%Z)).
  { intros evs2 w2 f Hrun <-. apply IH in Hrun. simpl in Hrun. lia. }
  destruct r as [status|e].
  - destruct (String.eqb status "filled"); [injection H as _ <- _; simpl; lia|].
    destruct (terminal_failure status); [injection H as _ <- _; simpl; lia|].
    destruct (wait_loop api fuel id start timeout _) as [[[evs2 w2] f]|] eqn:Hrun;
      [|discriminate].
    injection H as _ Hw _. eapply Hrec; eauto.
  - destruct (wait_loop api fuel id start timeout _) as [[[evs2 w2] f]|] eqn:Hrun;
      [|discriminate].
    injection H as _ Hw _. eapply Hrec; eauto.
Qed.

Lemma wait_loop_polls (fuel : nat) (id : string) (start timeout : Z)
      (w w' : World B) (evs : list event) (filled : bool) :
  wait_loop api fuel id start timeout w = Some (evs, w', filled) ->
  (3 * Z.of_nat (List.length (filter is_poll evs))
   <= Z.max 0 (start + timeout - now w + 2))%Z.
Proof.
  revert w w' evs filled.
  induction fuel as [|fuel IH]; intros w w' evs filled H; [discriminate|].
  simpl in H. destruct (Z.ltb_spec (now w - start) timeout) as [Hlt|Hge].
  2:{ injection H as <- _ _. simpl. lia. }
  destruct (get_order_by_client_order_id api (broker w) id) as [[b' took] r].
  unfold retry_interval in *.
  destruct r as [status|e].
  - destruct (String.eqb status "filled"); [injection H as <- _ _; simpl; lia|].
    destruct (terminal_failure status); [injection H as <- _ _; simpl; lia|].
    destruct (wait_loop api fuel id start timeout _) as [[[evs2 w2] f]|] eqn:Hrun;
      [|discriminate].
    injection H as <- _ _. apply IH in Hrun. unfold sleep in Hrun. cbn [now] in Hrun.
    cbn [filter is_poll List.length]. rewrite Nat2Z.inj_succ. lia.
  - destruct (wait_loop api fuel id start timeout _) as [[[evs2 w2] f]|] eqn:Hrun;
      [|discriminate].
    injection H as <- _ _. apply IH in Hrun. unfold sleep in Hrun. cbn [now] in Hrun.
    cbn [filter is_poll List.length]. rewrite Nat2Z.inj_succ. lia.
Qed.

Lemma wait_loop_filled (fuel : nat) (id : string) (start timeout : Z)
      (w w' : World B) (evs : list event) :
  (forall b, poll_answer api b id <> Ok "filled") ->
  wait_loop api fuel id start timeout w = Some (evs, w', true) -> False.
Proof.
  intros Hnever. revert w w' evs.
  induction fuel as [|fuel IH]; intros w w' evs H; [discriminate|].
  simpl in H. destruct (now w - start <? timeout)%Z; [|discriminate].
  pose proof (Hnever (broker w)) as Hans. unfold poll_answer in Hans.
  destruct (get_order_by_client_order_id api (broker w) id) as [[b' took] r].
  simpl in Hans. destruct r as [status|e].
  - destruct (String.eqb status "filled") eqn:Heq;
      [apply String.eqb_eq in Heq; congruence|].
    destruct (terminal_failure status); [discriminate|].
    destruct (wait_loop api fuel id start timeout _) as [[[evs2 w2] f]|] eqn:Hrun;
      [|discriminate].
    injection H as _ _ ->. eapply IH; eauto.
  - destruct (wait_loop api fuel id start timeout _) as [[[evs2 w2] f]|] eqn:Hrun;
      [|discriminate].
    injection H as _ _ ->. eapply IH; eauto.
Qed.

(** X11: whatever the broker answers, the fill monitor returns, and it
    returns less than one poll interval plus one status call after the
    timeout. *)
Theorem fill_monitor_returns_in_bounded_time
        (fuel : nat) (id : string) (timeout L : Z) (w : World B) :
  (0 <= timeout)%Z ->
  (Z.to_nat timeout < fuel)%nat ->
  (forall b, (poll_duration api b id <= L)%Z) ->
  exists evs w' filled,
    wait_for_order_fill api fuel id timeout w = Some (evs, w', filled) /\
    (0 <= now w' - now w < timeout + retry_interval + L)%Z.
Proof.
  intros Htimeout Hfuel Hlat.
  destruct (wait_for_order_fill_total api fuel id timeout w Hfuel) as [[[evs w'] filled] Hrun].
  exists evs, w', filled. split; [exact Hrun|].
  unfold wait_for_order_fill in Hrun.
  apply (wait_loop_elapsed _ _ _ _ L _ _ _ _ Hlat) in Hrun.
  pose proof (Hlat (broker w)) as Hl. unfold poll_duration in Hl.
  unfold retry_interval in *. lia.
Qed.

(** X12: the fill monitor asks the broker for the status at most once per
    three seconds of timeout, rounded up, however long the answers take. *)
Theorem fill_monitor_polls_are_bounded
        (fuel : nat) (id : string) (timeout : Z) (w : World B) :
  (0 <= timeout)%Z ->
  (Z.to_nat timeout < fuel)%nat ->
  exists evs w' filled,
    wait_for_order_fill api fuel id timeout w = Some (evs, w', filled) /\
    (3 * Z.of_nat (List.length (filter is_poll evs)) <= timeout + 2)%Z.
Proof.
  intros Htimeout Hfuel.
  destruct (wait_for_order_fill_total api fuel id timeout w Hfuel) as [[[evs w'] filled] Hrun].
  exists evs, w', filled. split; [exact Hrun|].
  unfold wait_for_order_fill in Hrun. apply wait_loop_polls in Hrun. lia.
Qed.

(** X13: with a timeout of zero or less the fill monitor does not ask the
    broker at all: it logs the timeout and reports the order as not filled,
    at once. *)
Theorem no_timeout_budget_means_no_poll
        (fuel : nat) (id : string) (timeout : Z) (w : World B) :
  (timeout <= 0)%Z ->
  (0 < fuel)%nat ->
  wait_for_order_fill api fuel id timeout w
  = Some ([LogError (NotFilledWithinTimeout id)], w, false).
Proof.
  intros Htimeout Hfuel. unfold wait_for_order_fill.
  destruct fuel as [|fuel]; [lia|]. simpl.
  destruct (Z.ltb_spec (now w - now w) timeout) as [Hlt|Hge]; [lia | reflexivity].
Qed.

(** X14: the fill monitor reports an order as filled only if the broker
    answered "filled": with a broker that never does, it returns false. *)
Theorem filled_only_when_broker_says_filled
        (fuel : nat) (id : string) (timeout : Z) (w : World B) :
  (forall b, poll_answer api b id <> Ok "filled") ->
  (Z.to_nat timeout < fuel)%nat ->
  exists evs w', wait_for_order_fill api fuel id timeout w = Some (evs, w', false).
Proof.
  intros Hnever Hfuel.
  destruct (wait_for_order_fill_total api fuel id timeout w Hfuel) as [[[evs w'] filled] Hrun].
  exists evs, w'. destruct filled; [|exact Hrun].
  exfalso. unfold wait_for_order_fill in Hrun. eapply wait_loop_filled; eauto.
Qed.

End MonitorMore.

(** ** The executor *)

Section ExecutorMore.

Context {B : Type}.
Variable api : Api B.

Lemma resolves_not_submit (action symbol : string) (e : event) :
  resolves action symbol e = true -> is_submit e = false.
Proof. destruct e; simpl; auto; discriminate. Qed.

Lemma execute_order_submissions (fuel : nat) (action : string) (timeout : Z)
      (symbol : string) (details : order_details) (w w' : World B)
      (evs : list event) (r : result unit) :
  execute_order api fuel action timeout symbol details w = Some (evs, w', r) ->
  filter is_submit evs = due_submissions action [(symbol, details)].
Proof.
  intros H. apply execute_order_cases in H. unfold due_submissions. simpl.
  destruct H as [(-> & -> & _)|[(q & -> & -> & -> & _)|
                                (q & mid & out & -> & -> & _ & -> & Hmid & Hout)]];
    try reflexivity.
  simpl. rewrite filter_app, (filter_none _ _ Hmid). simpl.
  now rewrite (resolves_not_submit _ _ _ Hout).
Qed.

(** The group runs its orders in turn and stops only at one that has no
    quantity. *)
Lemma execute_group_submissions (fuel : nat) (action : string) (timeout : Z)
      (orders : dict order_details) (w w' : World B) (evs : list event) (r : result unit) :
  execute_group api fuel action timeout orders w = Some (evs, w', r) ->
  exists done rest,
    orders = done ++ rest /\
    filter is_submit evs = due_submissions action done /\
    match r with
    | Ok _ => rest = []
    | Raise e => e = KeyError "qty" /\ exists s d rest', rest = (s, d) :: rest' /\ qty d = None
    end.
Proof.
  revert w w' evs r. induction orders as [|[s d] orders IH]; simpl; intros w w' evs r H.
  - injection H as <- _ <-. exists [], []. auto.
  - destruct (execute_order api fuel action timeout s d w) as [[[evs1 w1] r1]|] eqn:H1;
      [|discriminate].
    pose proof (execute_order_submissions _ _ _ _ _ _ _ _ _ H1) as Hsub1.
    destruct r1 as [u|e].
    + destruct (execute_group api fuel action timeout orders w1) as [[[evs2 w2] r2]|] eqn:H2;
        [|discriminate].
      injection H as <- _ <-.
      destruct (IH _ _ _ _ H2) as (done & rest & -> & Hsub2 & Hr).
      exists ((s, d) :: done), rest. split; [reflexivity|]. split; [|exact Hr].
      rewrite filter_app, Hsub1, Hsub2. unfold due_submissions. simpl.
      now rewrite app_nil_r.
    + injection H as <- _ <-. apply execute_order_cases in H1.
      destruct H1 as [(Hq & -> & He)|[(q & _ & _ & _ & _ & Hr)|(q & m & o & _ & _ & Hr & _)]];
        try discriminate.
      injection He as ->. exists [], ((s, d) :: orders). simpl. eauto 10.
Qed.

(** X15: a group whose orders all carry a quantity runs to its end, and its
    submissions are exactly the orders with a positive quantity, each once,
    in the order of the dict, whatever happened to the earlier ones
    (rejected, cancelled, expired, timed out); orders with a quantity of
    zero or less are passed over. *)
Theorem group_submits_each_positive_order_once
        (fuel : nat) (action : string) (timeout : Z)
        (orders : dict order_details) (w : World B) :
  (Z.to_nat timeout < fuel)%nat ->
  (forall s d, In (s, d) orders -> qty d <> None) ->
  exists evs w',
    execute_group api fuel action timeout orders w = Some (evs, w', Ok tt) /\
    filter is_submit evs = due_submissions action orders.
Proof.
  intros Hfuel Hqty.
  destruct (execute_group_total api fuel action timeout orders w Hfuel)
    as [[[evs w'] r] Hrun].
  destruct (execute_group_submits_all api _ _ _ _ _ _ _ _ Hqty Hrun) as [-> _].
  exists evs, w'. split; [exact Hrun|].
  destruct (execute_group_submissions _ _ _ _ _ _ _ _ Hrun) as (done & rest & -> & Hsub & ->).
  now rewrite app_nil_r.
Qed.

(** X16: the executor submits nothing of its own: every submission in the
    trace of a group is for an entry of the group, under the group's action,
    with that entry's quantity, and the quantity is positive. *)
Theorem group_submits_only_its_positive_orders
        (fuel : nat) (action : string) (timeout : Z)
        (orders : dict order_details) (w w' : World B) (evs : list event) (r : result unit)
        (s : string) (q : num) (a : string) :
  execute_group api fuel action timeout orders w = Some (evs, w', r) ->
  In (SubmitOrder s q a) evs ->
  a = action /\ exists d, In (s, d) orders /\ qty d = Some q /\ num_gt0 q = true.
Proof.
  intros Hrun Hin.
  destruct (execute_group_submissions _ _ _ _ _ _ _ _ Hrun) as (done & rest & -> & Hsub & _).
  assert (Hdue : In (SubmitOrder s q a) (due_submissions action done)).
  { rewrite <- Hsub. apply filter_In. auto. }
  unfold due_submissions in Hdue. apply in_flat_map in Hdue.
  destruct Hdue as ([s' d] & Hd & Hev). simpl in Hev.
  destruct (qty d) as [q'|] eqn:Hq; [|contradiction].
  destruct (num_gt0 q') eqn:Hpos; [|contradiction].
  destruct Hev as [Hev|[]]. injection Hev as -> -> ->.
  split; [reflexivity|]. exists d. rewrite in_app_iff. auto.
Qed.

Lemma execute_group_stops (fuel : nat) (action : string) (timeout : Z)
      (done rest : dict order_details) (s : string) (d : order_details) (w : World B) :
  (Z.to_nat timeout < fuel)%nat ->
  (forall s' d', In (s', d') done -> qty d' <> None) ->
  qty d = None ->
  exists evs w',
    execute_group api fuel action timeout (done ++ (s, d) :: rest) w
    = Some (evs, w', Raise (KeyError "qty")) /\
    filter is_submit evs = due_submissions action done.
Proof.
  intros Hfuel Hdone Hd. revert w.
  induction done as [|[k v] done IH]; intros w.
  - exists [], w. simpl. unfold execute_order. rewrite Hd. auto.
  - destruct (execute_order_total api fuel action timeout k v w Hfuel)
      as [[[evs1 w1] r1] H1].
    pose proof (execute_order_submissions _ _ _ _ _ _ _ _ _ H1) as Hsub1.
    assert (Hr1 : r1 = Ok tt).
    { apply execute_order_cases in H1.
      destruct H1 as [(Hq & _)|[(q & _ & _ & _ & _ & Hr)|(q & m & o & _ & _ & Hr & _)]];
        auto.
      exfalso. apply (Hdone k v); simpl; auto. }
    subst r1.
    destruct (IH (fun s' d' Hin => Hdone s' d' (or_intror Hin)) w1)
      as (evs2 & w2 & H2 & Hsub2).
    exists (evs1 ++ evs2), w2. split.
    + simpl. rewrite H1, H2. reflexivity.
    + rewrite filter_app, Hsub1, Hsub2. unfold due_submissions. simpl.
      now rewrite app_nil_r.
Qed.

(** X17: an order without a quantity stops the executor with [KeyError]:
    when it is a sell, the sells before it have been handled as usual, and
    neither the sells after it nor any buy is submitted. *)
Theorem sell_without_quantity_stops_the_run
        (fuel : nat) (done rest buy_orders : dict order_details)
        (s : string) (d : order_details) (timeout : Z) (w : World B) :
  (Z.to_nat timeout < fuel)%nat ->
  (forall s' d', In (s', d') done -> qty d' <> None) ->
  qty d = None ->
  exists evs w',
    execute_prioritized_orders api fuel (done ++ (s, d) :: rest) buy_orders timeout w
    = Some (evs, w', Raise (KeyError "qty")) /\
    filter is_submit evs = due_submissions "sell" done.
Proof.
  intros Hfuel Hdone Hd.
  destruct (execute_group_stops fuel "sell" timeout done rest s d w Hfuel Hdone Hd)
    as (evs & w' & Hrun & Hsub).
  exists evs, w'. unfold execute_prioritized_orders. rewrite Hrun. auto.
Qed.

End ExecutorMore.

(** ** The orchestrator *)

Section OrchestratorMore.

Context {B : Type}.
Variable so : set_order.
Variable api : Api B.

Lemma calculate_orders_has_qty (b : B) (target : dict float) (positions : dict position)
      (amount : float) (orders : dict order_details) (s : string) (o : order_details) :
  calculate_orders so api b target positions amount = Ok orders ->
  NoDup (keys target) ->
  In (s, o) orders -> qty o <> None.
Proof.
  intros Hcalc Hnd Hin.
  destruct (calculate_orders_entry _ _ _ _ _ _ _ _ _ Hcalc Hnd Hin)
    as [(_ & p & _ & ->)|(w & d & Hw & _ & Hpriced)]; [discriminate|].
  apply price_order_Ok in Hpriced. destruct Hpriced as (_ & _ & Hq).
  destruct Hq as [q Hq].
  - apply mem_In. change (In (fst (s, w)) (map fst target)). now apply in_map.
  - simpl in Hq. subst o. discriminate.
Qed.

(** Sells and buys that all carry a quantity are executed to the end. *)
Lemma prepared_execution (fuel : nat) (sell_orders buy_orders : dict order_details)
      (timeout : Z) (w : World B) :
  (Z.to_nat timeout < fuel)%nat ->
  (forall s d, In (s, d) sell_orders -> qty d <> None) ->
  (forall s d, In (s, d) buy_orders -> qty d <> None) ->
  exists evs w',
    execute_prioritized_orders api fuel sell_orders buy_orders timeout w
    = Some (evs, w', Ok tt) /\
    filter is_submit evs =
    due_submissions "sell" sell_orders ++ due_submissions "buy" buy_orders.
Proof.
  intros Hfuel Hsell Hbuy. unfold execute_prioritized_orders.
  destruct (execute_group_total api fuel "sell" timeout sell_orders w Hfuel)
    as [[[evs1 w1] r1] H1].
  destruct (execute_group_submits_all api _ _ _ _ _ _ _ _ Hsell H1) as [-> _].
  destruct (execute_group_total api fuel "buy" timeout buy_orders w1 Hfuel)
    as [[[evs2 w2] r2] H2].
  destruct (execute_group_submits_all api _ _ _ _ _ _ _ _ Hbuy H2) as [-> _].
  rewrite H1, H2. exists (evs1 ++ evs2), w2. split; [reflexivity|].
  destruct (execute_group_submissions _ _ _ _ _ _ _ _ _ H1) as (d1 & r1 & -> & Hs1 & ->).
  destruct (execute_group_submissions _ _ _ _ _ _ _ _ _ H2) as (d2 & r2 & -> & Hs2 & ->).
  now rewrite filter_app, Hs1, Hs2, !app_nil_r.
Qed.

Lemma separated_orders_have_qty (b : B) (target : dict float) (positions : dict position)
      (amount : float) (orders sell_orders buy_orders : dict order_details) :
  calculate_orders so api b target positions amount = Ok orders ->
  NoDup (keys target) ->
  separate_and_prioritize_orders orders = (sell_orders, buy_orders) ->
  (forall s d, In (s, d) sell_orders -> In (s, d) orders /\ qty d <> None) /\
  (forall s d, In (s, d) buy_orders -> In (s, d) orders /\ qty d <> None).
Proof.
  intros Hcalc Hnd Hsep.
  rewrite separate_filters in Hsep by (eapply calculate_orders_NoDup; eauto).
  injection Hsep as <- <-.
  split; intros s d Hin; apply filter_In in Hin; destruct Hin as [Hin _];
    (split; [exact Hin | eapply calculate_orders_has_qty; eauto]).
Qed.

(** What [hello_pubsub] comes to once the target is fetched, the account is
    read, the market is open and the orders are calculated. *)
Lemma hello_pubsub_open_market (fuel : nat) (config : Config) (df : DataFrame) (w : World B)
      (target : dict float) (held : list (string * position)) (equity : float)
      (orders sell_orders buy_orders : dict order_details) :
  snd (get_target_allocations df (symphony_to_trade config)) = Ok target ->
  list_positions api (broker w) = Ok held ->
  get_account_equity api (broker w) = Ok equity ->
  get_clock_is_open api (broker w) = Ok true ->
  calculate_orders so api (broker w) target (dict_of_items held)
    (PrimFloat.mul equity (cash_weight config)) = Ok orders ->
  separate_and_prioritize_orders orders = (sell_orders, buy_orders) ->
  hello_pubsub so api fuel config df w =
  match execute_prioritized_orders api fuel sell_orders buy_orders (timeout config) w with
  | Some (evs, w', Ok _) =>
      Some (fst (get_target_allocations df (symphony_to_trade config))
              ++ evs ++ [LogInfo RebalancingComplete], w', Ok tt)
  | Some (evs, w', Raise e) =>
      Some (fst (get_target_allocations df (symphony_to_trade config)) ++ evs, w', Raise e)
  | None => None
  end.
Proof.
  intros Hfetch Hheld Hequity Hclock Hcalc Hsep.
  unfold hello_pubsub, get_current_positions, calculate_target_investment, is_market_open.
  destruct (get_target_allocations df (symphony_to_trade config)) as [logs fetched].
  simpl in Hfetch. subst fetched.
  rewrite Hheld, Hequity, Hclock. cbn [bind negb]. rewrite Hcalc. cbn [bind].
  rewrite Hsep. reflexivity.
Qed.

(** X19: with the market closed the run places no order and leaves the
    broker as it was, whatever the sheet, the positions and the equity are,
    and whether the run ends normally or with an exception. *)
Theorem closed_market_places_no_order
        (fuel : nat) (config : Config) (df : DataFrame) (w : World B) :
  get_clock_is_open api (broker w) = Ok false ->
  exists evs r,
    hello_pubsub so api fuel config df w = Some (evs, w, r) /\
    forall e, In e evs -> is_submit e = false.
Proof.
  intros Hclock.
  pose proof (get_target_allocations_logs df (symphony_to_trade config)) as Hlogs.
  unfold hello_pubsub, get_current_positions, calculate_target_investment, is_market_open.
  destruct (get_target_allocations df (symphony_to_trade config)) as [logs fetched].
  simpl in Hlogs.
  destruct fetched as [target|e]; [|simpl; eauto].
  destruct (list_positions api (broker w)) as [held|e]; [|simpl; eauto].
  destruct (get_account_equity api (broker w)) as [equity|e]; [|simpl; eauto].
  rewrite Hclock. simpl. eexists. eexists. split; [reflexivity|].
  intros e He. rewrite in_app_iff in He. destruct He as [He|[<-|[]]]; auto.
Qed.

(** X20: a run that ends with an exception has placed no order and has left
    the broker as it was: whatever fails (the fetch, reading the account or
    the clock, pricing a symbol) fails before the first submission, and no
    rejected, cancelled, expired or timed-out order makes the run fail. *)
Theorem failed_run_has_placed_no_order
        (fuel : nat) (config : Config) (df : DataFrame) (w w' : World B)
        (evs : list event) (e : exn) :
  (Z.to_nat (timeout config) < fuel)%nat ->
  hello_pubsub so api fuel config df w = Some (evs, w', Raise e) ->
  w' = w /\ forall e0, In e0 evs -> is_submit e0 = false.
Proof.
  intros Hfuel Hrun.
  pose proof (get_target_allocations_logs df (symphony_to_trade config)) as Hlogs.
  pose proof (get_target_allocations_NoDup df (symphony_to_trade config)) as Hnd.
  destruct (snd (get_target_allocations df (symphony_to_trade config)))
    as [target|e1] eqn:Hfetch.
  2:{ unfold hello_pubsub in Hrun.
      destruct (get_target_allocations df (symphony_to_trade config)) as [logs fetched].
      simpl in Hfetch, Hlogs. subst fetched. simpl in Hrun.
      injection Hrun as <- <- _. auto. }
  specialize (Hnd target eq_refl).
  destruct (list_positions api (broker w)) as [held|e1] eqn:Hheld.
  2:{ unfold hello_pubsub, get_current_positions in Hrun.
      destruct (get_target_allocations df (symphony_to_trade config)) as [logs fetched].
      simpl in Hfetch, Hlogs. subst fetched. rewrite Hheld in Hrun. simpl in Hrun.
      injection Hrun as <- <- _. auto. }
  destruct (get_account_equity api (broker w)) as [equity|e1] eqn:Hequity.
  2:{ unfold hello_pubsub, get_current_positions, calculate_target_investment in Hrun.
      destruct (get_target_allocations df (symphony_to_trade config)) as [logs fetched].
      simpl in Hfetch, Hlogs. subst fetched. rewrite Hheld, Hequity in Hrun. simpl in Hrun.
      injection Hrun as <- <- _. auto. }
  destruct (get_clock_is_open api (broker w)) as [[|]|e1] eqn:Hclock.
  2,3: unfold hello_pubsub, get_current_positions, calculate_target_investment,
         is_market_open in Hrun;
       destruct (get_target_allocations df (symphony_to_trade config)) as [logs fetched];
       simpl in Hfetch, Hlogs; subst fetched;
       rewrite Hheld, Hequity, Hclock in Hrun; simpl in Hrun;
       try discriminate; injection Hrun as <- <- _; auto.
  destruct (calculate_orders so api (broker w) target (dict_of_items held)
              (PrimFloat.mul equity (cash_weight config))) as [orders|e1] eqn:Hcalc.
  2:{ unfold hello_pubsub, get_current_positions, calculate_target_investment,
        is_market_open in Hrun.
      destruct (get_target_allocations df (symphony_to_trade config)) as [logs fetched].
      simpl in Hfetch, Hlogs. subst fetched.
      rewrite Hheld, Hequity, Hclock in Hrun. cbn [bind negb] in Hrun.
      rewrite Hcalc in Hrun. simpl in Hrun. injection Hrun as <- <- _. auto. }
  exfalso.
  destruct (separate_and_prioritize_orders orders) as [sell_orders buy_orders] eqn:Hsep.
  rewrite (hello_pubsub_open_market fuel config df w target held equity orders
             sell_orders buy_orders Hfetch Hheld Hequity Hclock Hcalc Hsep) in Hrun.
  destruct (separated_orders_have_qty _ _ _ _ _ _ _ Hcalc Hnd Hsep) as [Hs Hb].
  destruct (prepared_execution fuel sell_orders buy_orders (timeout config) w Hfuel)
    as (evs1 & w1 & Hexec & _).
  { intros s d Hin. apply (Hs s d Hin). }
  { intros s d Hin. apply (Hb s d Hin). }
  rewrite Hexec in Hrun. discriminate.
Qed.

(** X21: when the fetch, the account reads and the pricing succeed and the
    market is open, the run ends normally, closes its log with "Rebalancing
    complete", and its submissions are exactly the calculated sells with a
    positive quantity followed by the calculated buys with a positive
    quantity, each once, whatever the broker did with them. *)
Theorem run_submits_the_calculated_orders
        (fuel : nat) (config : Config) (df : DataFrame) (w : World B)
        (target : dict float) (held : list (string * position)) (equity : float)
        (orders sell_orders buy_orders : dict order_details) :
  (Z.to_nat (timeout config) < fuel)%nat ->
  snd (get_target_allocations df (symphony_to_trade config)) = Ok target ->
  list_positions api (broker w) = Ok held ->
  get_account_equity api (broker w) = Ok equity ->
  get_clock_is_open api (broker w) = Ok true ->
  calculate_orders so api (broker w) target (dict_of_items held)
    (PrimFloat.mul equity (cash_weight config)) = Ok orders ->
  separate_and_prioritize_orders orders = (sell_orders, buy_orders) ->
  exists evs w',
    hello_pubsub so api fuel config df w
    = Some (evs ++ [LogInfo RebalancingComplete], w', Ok tt) /\
    filter is_submit evs =
    due_submissions "sell" sell_orders ++ due_submissions "buy" buy_orders.
Proof.
  intros Hfuel Hfetch Hheld Hequity Hclock Hcalc Hsep.
  pose proof (get_target_allocations_logs df (symphony_to_trade config)) as Hlogs.
  pose proof (get_target_allocations_NoDup df (symphony_to_trade config) target Hfetch) as Hnd.
  rewrite (hello_pubsub_open_market fuel config df w target held equity orders
             sell_orders buy_orders Hfetch Hheld Hequity Hclock Hcalc Hsep).
  destruct (separated_orders_have_qty _ _ _ _ _ _ _ Hcalc Hnd Hsep) as [Hs Hb].
  destruct (prepared_execution fuel sell_orders buy_orders (timeout config) w Hfuel)
    as (evs1 & w1 & Hexec & Hsub).
  { intros s d Hin. apply (Hs s d Hin). }
  { intros s d Hin. apply (Hb s d Hin). }
  rewrite Hexec.
  exists (fst (get_target_allocations df (symphony_to_trade config)) ++ evs1), w1.
  split; [now rewrite app_assoc|].
  rewrite filter_app, (filter_none _ _ Hlogs). exact Hsub.
Qed.

(** X22: a held symbol outside the target whose quantity is not positive (a
    short position, or a quantity of zero) is never traded by the run: its
    liquidation order is calculated and then passed over by the executor. *)
Theorem non_positive_position_is_never_closed
        (fuel : nat) (config : Config) (df : DataFrame) (w : World B)
        (target : dict float) (held : list (string * position)) (equity : float)
        (orders : dict order_details) (s : string) (p : position) :
  (Z.to_nat (timeout config) < fuel)%nat ->
  snd (get_target_allocations df (symphony_to_trade config)) = Ok target ->
  list_positions api (broker w) = Ok held ->
  get_account_equity api (broker w) = Ok equity ->
  get_clock_is_open api (broker w) = Ok true ->
  calculate_orders so api (broker w) target (dict_of_items held)
    (PrimFloat.mul equity (cash_weight config)) = Ok orders ->
  dict_get s (dict_of_items held) = Some p ->
  ~ In s (keys target) ->
  PrimFloat.ltb 0%float (pos_qty p) = false ->
  In (s, full_liquidation p) orders /\
  exists evs w',
    hello_pubsub so api fuel config df w = Some (evs, w', Ok tt) /\
    forall q a, ~ In (SubmitOrder s q a) evs.
Proof.
  intros Hfuel Hfetch Hheld Hequity Hclock Hcalc Hp Hnot Hqty.
  pose proof (get_target_allocations_logs df (symphony_to_trade config)) as Hlogs.
  pose proof (get_target_allocations_NoDup df (symphony_to_trade config) target Hfetch) as Hnd.
  split.
  { pose proof (calculate_orders_NoDup _ _ _ _ _ _ _ Hcalc) as Hndo.
    apply calculate_orders_Ok_inv in Hcalc. destruct Hcalc as (liq & Hliq & Hprice).
    apply pricing_pass_Ok in Hprice. destruct Hprice as [_ Hget]. specialize (Hget s).
    rewrite rebalance_pass_other in Hget by exact Hnot.
    apply liquidation_pass_Ok in Hliq. destruct Hliq as (_ & Hin & _).
    destruct (Hin s) as (p' & Hp' & Hs).
    { apply In_sell_off_symbols. split; [eapply dict_get_In_keys; eauto | exact Hnot]. }
    assert (Hmem : mem s (keys target) = false) by now apply mem_false_not_In.
    rewrite Hs, Hmem in Hget. apply dict_get_In. congruence. }
  destruct (separate_and_prioritize_orders orders) as [sell_orders buy_orders] eqn:Hsep.
  rewrite (hello_pubsub_open_market fuel config df w target held equity orders
             sell_orders buy_orders Hfetch Hheld Hequity Hclock Hcalc Hsep).
  destruct (separated_orders_have_qty _ _ _ _ _ _ _ Hcalc Hnd Hsep) as [Hs Hb].
  destruct (prepared_execution fuel sell_orders buy_orders (timeout config) w Hfuel)
    as (evs1 & w1 & Hexec & Hsub).
  { intros s0 d Hin. apply (Hs s0 d Hin). }
  { intros s0 d Hin. apply (Hb s0 d Hin). }
  rewrite Hexec. eexists. eexists. split; [reflexivity|].
  intros q a Hin.
  assert (Hdue : In (SubmitOrder s q a)
                    (due_submissions "sell" sell_orders ++ due_submissions "buy" buy_orders)).
  { rewrite <- Hsub. apply filter_In. split; [|reflexivity].
    rewrite !in_app_iff in Hin. destruct Hin as [Hin|[Hin|[Hin|[]]]]; auto.
    - apply Hlogs in Hin. discriminate.
    - discriminate. }
  assert (Hentry : exists d, In (s, d) orders /\ qty d = Some q /\ num_gt0 q = true).
  { rewrite in_app_iff in Hdue. unfold due_submissions in Hdue.
    destruct Hdue as [Hdue|Hdue]; apply in_flat_map in Hdue;
      destruct Hdue as ([s' d] & Hd & Hev); simpl in Hev;
      destruct (qty d) as [q'|] eqn:Hq; try contradiction;
      destruct (num_gt0 q') eqn:Hpos; try contradiction;
      destruct Hev as [Hev|[]]; injection Hev as -> -> _;
      exists d; (split; [|auto]); [apply (Hs s d Hd) | apply (Hb s d Hd)]. }
  destruct Hentry as (d & Hd & Hq & Hpos).
  destruct (calculate_orders_entry _ _ _ _ _ _ _ _ _ Hcalc Hnd Hd)
    as [(_ & p' & Hp' & ->)|(w0 & d0 & Hw & _)].
  - assert (p' = p) by congruence. subst p'. simpl in Hq. injection Hq as <-.
    simpl in Hpos. congruence.
  - apply Hnot. change (In (fst (s, w0)) (map fst target)). now apply in_map.
Qed.

End OrchestratorMore.

(** ** Start-up *)

Lemma required_key_is_readable {V : Type} (config : dict V) (key : string) :
  In key (keys config) -> exists v, dict_item key config = Ok v.
Proof.
  intros Hin. unfold dict_item. destruct (dict_get key config) as [v|] eqn:Hget; [eauto|].
  apply dict_get_None_keys in Hget. contradiction.
Qed.

(** X23: [validate_config] lets the run go on exactly when the configuration
    has the seven keys ALPACA_API_KEY, ALPACA_SECRET_KEY, ALPACA_BASE_URL,
    symphony_to_trade, symphony_url, cash_weight and timeout; otherwise it
    ends the process with status 1. *)
Theorem validate_config_requires_its_seven_keys {V : Type} (config : dict V) :
  (validate_config config = Validated <->
   In "ALPACA_API_KEY" (keys config) /\
   In "ALPACA_SECRET_KEY" (keys config) /\
   In "ALPACA_BASE_URL" (keys config) /\
   In "symphony_to_trade" (keys config) /\
   In "symphony_url" (keys config) /\
   In "cash_weight" (keys config) /\
   In "timeout" (keys config)) /\
  (validate_config config <> Validated -> validate_config config = SystemExit 1).
Proof.
  unfold validate_config.
  assert (Hall : forallb (fun param => mem param (keys config)) required_params = true <->
                 In "ALPACA_API_KEY" (keys config) /\
                 In "ALPACA_SECRET_KEY" (keys config) /\
                 In "ALPACA_BASE_URL" (keys config) /\
                 In "symphony_to_trade" (keys config) /\
                 In "symphony_url" (keys config) /\
                 In "cash_weight" (keys config) /\
                 In "timeout" (keys config)).
  { unfold required_params. cbn [forallb].
    rewrite !andb_true_iff, !mem_In. tauto. }
  destruct (forallb (fun param => mem param (keys config)) required_params).
  - split; [|congruence]. split; [intros _; now apply Hall | reflexivity].
  - split; [|reflexivity]. split; [discriminate|].
    intros H. apply Hall in H. discriminate.
Qed.

(** X24: a configuration that passes [validate_config] can still stop the
    run: ['service_account_file'] is not among the required keys, and
    [hello_pubsub] subscripts it before the fetch, so without it the run
    raises [KeyError]; with it, every key read before the fetch is there. *)
Theorem validated_config_may_lack_service_account_file {V : Type} (config : dict V) :
  validate_config config = Validated ->
  (~ In "service_account_file" (keys config) ->
   read_before_fetch config = Raise (KeyError "service_account_file")) /\
  (In "service_account_file" (keys config) ->
   exists vs, read_before_fetch config = Ok vs).
Proof.
  unfold validate_config.
  destruct (forallb (fun param => mem param (keys config)) required_params) eqn:Hall;
    [intros _ | discriminate].
  rewrite forallb_forall in Hall.
  assert (Hreq : forall key, In key required_params -> exists v, dict_item key config = Ok v).
  { intros key Hin. apply required_key_is_readable, mem_In, Hall, Hin. }
  destruct (Hreq "ALPACA_API_KEY") as [v1 H1]; [simpl; tauto|].
  destruct (Hreq "ALPACA_SECRET_KEY") as [v2 H2]; [simpl; tauto|].
  destruct (Hreq "ALPACA_BASE_URL") as [v3 H3]; [simpl; tauto|].
  destruct (Hreq "symphony_url") as [v4 H4]; [simpl; tauto|].
  destruct (Hreq "symphony_to_trade") as [v6 H6]; [simpl; tauto|].
  unfold read_before_fetch, keys_read_before_fetch. cbn [map_result].
  rewrite H1, H2, H3, H4, H6. cbn [bind]. split.
  - intros Habs. apply dict_get_None_keys in Habs. unfold dict_item. now rewrite Habs.
  - intros Hin. destruct (required_key_is_readable config _ Hin) as [v5 ->]. cbn [bind]. eauto.
Qed.

(** ** The further properties on the sample data *)

Lemma missing_column_witness :
  In "Ticker Allocation Percent" expected_columns /\
  ~ In "Ticker Allocation Percent" (columns Scenario.df_without_percent) /\
  exists missing,
    In "Ticker Allocation Percent" missing /\
    get_target_allocations Scenario.df_without_percent "Alpha"
    = ([LogError (MissingColumns missing)], Ok []).
Proof.
  assert (Hexp : In "Ticker Allocation Percent" expected_columns) by (simpl; auto).
  assert (Habs : ~ In "Ticker Allocation Percent" (columns Scenario.df_without_percent))
    by (simpl; intuition discriminate).
  split; [exact Hexp|]. split; [exact Habs|].
  exact (missing_column_gives_empty_target Scenario.df_without_percent "Alpha"
           "Ticker Allocation Percent" Hexp Habs).
Defined.

Lemma non_numeric_percentage_witness :
  missing_columns Scenario.df_bad_beta = [] /\
  In {| Symphony := "Beta"; Ticker := "CCC"; Ticker_Allocation_Percent := CBad |}
     (rows Scenario.df_bad_beta) /\
  PrimFloat.is_nan (to_numeric CBad) = true /\
  get_target_allocations Scenario.df_bad_beta "Beta" = ([LogError NaNValues], Ok []).
Proof.
  assert (Hin : In {| Symphony := "Beta"; Ticker := "CCC";
                      Ticker_Allocation_Percent := CBad |} (rows Scenario.df_bad_beta))
    by (simpl; auto).
  split; [reflexivity|]. split; [exact Hin|]. split; [reflexivity|].
  exact (non_numeric_percentage_voids_target Scenario.df_bad_beta "Beta" _
           eq_refl Hin eq_refl eq_refl).
Defined.

Lemma calculated_orders_witness :
  calculate_orders insertion_order Sample.api tt Sample.target Sample.positions 1000
  = Ok Sample.orders /\
  NoDup (keys Sample.target) /\
  NoDup (keys Sample.orders) /\
  forall s o, In (s, o) Sample.orders ->
    (In s (keys Sample.positions) \/ In s (keys Sample.target)) /\
    (side o = "sell" \/ side o = "buy") /\
    exists q, qty o = Some q.
Proof.
  assert (Hnd : NoDup (keys Sample.target)) by distinct_keys.
  split; [reflexivity|]. split; [exact Hnd|].
  exact (calculated_orders_are_well_formed insertion_order Sample.api tt Sample.target
           Sample.positions 1000 Sample.orders eq_refl Hnd).
Defined.

Lemma target_order_value_witness :
  calculate_orders insertion_order Sample.api tt Sample.target Sample.positions 1000
  = Ok Sample.orders /\
  NoDup (keys Sample.target) /\
  In ("AAA", {| side := "buy"; value := 750; qty := Some (PyFloat 93.75) |}) Sample.orders /\
  In "AAA" (keys Sample.target) /\
  PrimFloat.ltb 0%float 750%float = true.
Proof.
  assert (Hnd : NoDup (keys Sample.target)) by distinct_keys.
  assert (Hin : In ("AAA", {| side := "buy"; value := 750; qty := Some (PyFloat 93.75) |})
                   Sample.orders) by (simpl; auto).
  assert (Hkey : In "AAA" (keys Sample.target)) by (simpl; auto).
  split; [reflexivity|]. split; [exact Hnd|]. split; [exact Hin|]. split; [exact Hkey|].
  exact (target_order_value_is_positive insertion_order Sample.api tt Sample.target
           Sample.positions 1000 Sample.orders "AAA" _ eq_refl Hnd Hin Hkey).
Defined.

Lemma target_order_quantity_witness :
  calculate_orders insertion_order Sample.api tt Sample.target Sample.positions 1000
  = Ok Sample.orders /\
  NoDup (keys Sample.target) /\
  In ("BBB", {| side := "buy"; value := 250; qty := Some (PyInt 83) |}) Sample.orders /\
  In "BBB" (keys Sample.target) /\
  exists price fractionable,
    get_latest_trade_price Sample.api tt "BBB" = Ok price /\
    PrimFloat.eqb price 0%float = false /\
    get_asset_fractionable Sample.api tt "BBB" = Ok fractionable /\
    if fractionable : bool
    then Some (PyInt 83) = Some (PyFloat (PrimFloat.div 250 price))
    else exists n, py_round (PrimFloat.div 250 price) = Ok n /\
                   Some (PyInt 83) = Some (PyInt n).
Proof.
  assert (Hnd : NoDup (keys Sample.target)) by distinct_keys.
  assert (Hin : In ("BBB", {| side := "buy"; value := 250; qty := Some (PyInt 83) |})
                   Sample.orders) by (simpl; auto).
  assert (Hkey : In "BBB" (keys Sample.target)) by (simpl; auto).
  split; [reflexivity|]. split; [exact Hnd|]. split; [exact Hin|]. split; [exact Hkey|].
  exact (target_order_quantity_comes_from_price insertion_order Sample.api tt Sample.target
           Sample.positions 1000 Sample.orders "BBB" _ eq_refl Hnd Hin Hkey).
Defined.

Lemma zero_price_witness :
  NoDup (keys Sample.target) /\
  In ("BBB", 0.25%float) Sample.target /\
  PrimFloat.ltb 0%float (difference_of Sample.positions 1000 "BBB" 0.25) = true /\
  get_latest_trade_price Scenario.api_BBB_at_zero tt "BBB" = Ok 0%float /\
  PrimFloat.eqb 0%float 0%float = true /\
  exists e, calculate_orders insertion_order Scenario.api_BBB_at_zero tt
              Sample.target Sample.positions 1000 = Raise e.
Proof.
  assert (Hnd : NoDup (keys Sample.target)) by distinct_keys.
  assert (Hin : In ("BBB", 0.25%float) Sample.target) by (simpl; auto).
  split; [exact Hnd|]. split; [exact Hin|]. split; [reflexivity|].
  split; [reflexivity|]. split; [reflexivity|].
  exact (zero_price_aborts_calculate_orders insertion_order Scenario.api_BBB_at_zero tt
           Sample.target Sample.positions 1000 "BBB" 0.25 0
           Hnd Hin (or_introl eq_refl) eq_refl eq_refl).
Defined.

Lemma separate_keeps_witness :
  NoDup (keys Scenario.orders_with_hold) /\
  separate_and_prioritize_orders Scenario.orders_with_hold
  = ([("CCC", {| side := "sell"; value := 500; qty := Some (PyFloat 5) |})],
     [("AAA", {| side := "buy"; value := 750; qty := Some (PyFloat 93.75) |})]) /\
  dict_get "DDD" [("CCC", {| side := "sell"; value := 500; qty := Some (PyFloat 5) |})]
  = None /\
  dict_get "DDD" [("AAA", {| side := "buy"; value := 750; qty := Some (PyFloat 93.75) |})]
  = None.
Proof.
  assert (Hnd : NoDup (keys Scenario.orders_with_hold)) by distinct_keys.
  split; [exact Hnd|]. split; [reflexivity|].
  destruct (separate_keeps_each_entry_under_its_side Scenario.orders_with_hold _ _
              Hnd eq_refl "DDD" {| side := "hold"; value := 0; qty := None |})
    as (_ & _ & Hdropped).
  apply Hdropped; [reflexivity | discriminate | discriminate].
Defined.

Lemma fill_monitor_bounded_time_witness :
  (0 <= 7)%Z /\
  (Z.to_nat 7 < 10)%nat /\
  (forall b, (poll_duration (Sample.api_never_filling 5) b "id-BBB" <= 5)%Z) /\
  exists evs w' filled,
    wait_for_order_fill (Sample.api_never_filling 5) 10 "id-BBB" 7 Sample.world
    = Some (evs, w', filled) /\
    (0 <= now w' - now Sample.world < 7 + retry_interval + 5)%Z.
Proof.
  assert (Htimeout : (0 <= 7)%Z) by lia.
  assert (Hfuel : (Z.to_nat 7 < 10)%nat) by (simpl; lia).
  assert (Hlat : forall b, (poll_duration (Sample.api_never_filling 5) b "id-BBB" <= 5)%Z).
  { intros b. unfold poll_duration. simpl. lia. }
  split; [exact Htimeout|]. split; [exact Hfuel|]. split; [exact Hlat|].
  exact (fill_monitor_returns_in_bounded_time (Sample.api_never_filling 5) 10 "id-BBB" 7 5
           Sample.world Htimeout Hfuel Hlat).
Defined.

Lemma fill_monitor_polls_witness :
  (0 <= 7)%Z /\
  (Z.to_nat 7 < 10)%nat /\
  exists evs w' filled,
    wait_for_order_fill (Sample.api_never_filling 0) 10 "id-BBB" 7 Sample.world
    = Some (evs, w', filled) /\
    (3 * Z.of_nat (List.length (filter is_poll evs)) <= 7 + 2)%Z.
Proof.
  assert (Htimeout : (0 <= 7)%Z) by lia.
  assert (Hfuel : (Z.to_nat 7 < 10)%nat) by (simpl; lia).
  split; [exact Htimeout|]. split; [exact Hfuel|].
  exact (fill_monitor_polls_are_bounded (Sample.api_never_filling 0) 10 "id-BBB" 7
           Sample.world Htimeout Hfuel).
Defined.

Lemma no_timeout_budget_witness :
  (0 <= 0)%Z /\
  (0 < 1)%nat /\
  wait_for_order_fill Sample.api 1 "id-CCC" 0 Sample.world
  = Some ([LogError (NotFilledWithinTimeout "id-CCC")], Sample.world, false).
Proof.
  assert (Htimeout : (0 <= 0)%Z) by lia.
  assert (Hfuel : (0 < 1)%nat) by lia.
  split; [exact Htimeout|]. split; [exact Hfuel|].
  exact (no_timeout_budget_means_no_poll Sample.api 1 "id-CCC" 0 Sample.world
           Htimeout Hfuel).
Defined.

Lemma filled_only_witness :
  (forall b, poll_answer (Sample.api_never_filling 0) b "id-BBB" <> Ok "filled") /\
  (Z.to_nat 7 < 10)%nat /\
  exists evs w',
    wait_for_order_fill (Sample.api_never_filling 0) 10 "id-BBB" 7 Sample.world
    = Some (evs, w', false).
Proof.
  assert (Hnever : forall b,
             poll_answer (Sample.api_never_filling 0) b "id-BBB" <> Ok "filled")
    by (intros b; discriminate).
  assert (Hfuel : (Z.to_nat 7 < 10)%nat) by (simpl; lia).
  split; [exact Hnever|]. split; [exact Hfuel|].
  exact (filled_only_when_broker_says_filled (Sample.api_never_filling 0) 10 "id-BBB" 7
           Sample.world Hnever Hfuel).
Defined.

Lemma group_submits_each_witness :
  (Z.to_nat 7 < 10)%nat /\
  (forall s d, In (s, d) Sample.buy_orders -> qty d <> None) /\
  exists evs w',
    execute_group Sample.api_rejecting_AAA 10 "buy" 7 Sample.buy_orders Sample.world
    = Some (evs, w', Ok tt) /\
    filter is_submit evs
    = [SubmitOrder "AAA" (PyFloat 93.75) "buy"; SubmitOrder "BBB" (PyInt 83) "buy"].
Proof.
  assert (Hfuel : (Z.to_nat 7 < 10)%nat) by (simpl; lia).
  assert (Hqty : forall s d, In (s, d) Sample.buy_orders -> qty d <> None).
  { intros s d [H|[H|[]]]; injection H as _ <-; discriminate. }
  split; [exact Hfuel|]. split; [exact Hqty|].
  exact (group_submits_each_positive_order_once Sample.api_rejecting_AAA 10 "buy" 7
           Sample.buy_orders Sample.world Hfuel Hqty).
Defined.

Lemma group_submits_only_witness :
  execute_group Sample.api 10 "sell" 7 Sample.sell_orders Sample.world
  = Some ([LogInfo (Attempting "sell" (PyFloat 5) "CCC");
           SubmitOrder "CCC" (PyFloat 5) "sell";
           GetOrder "id-CCC";
           LogInfo (SuccessfullyExecuted "sell" "CCC" (PyFloat 5))],
          Sample.world, Ok tt) /\
  exists d, In ("CCC", d) Sample.sell_orders /\ qty d = Some (PyFloat 5) /\
            num_gt0 (PyFloat 5) = true.
Proof.
  split; [reflexivity|].
  apply (group_submits_only_its_positive_orders Sample.api 10 "sell" 7 Sample.sell_orders
           Sample.world Sample.world _ (Ok tt) "CCC" (PyFloat 5) "sell" eq_refl).
  simpl. auto.
Defined.

Lemma sell_without_quantity_witness :
  (Z.to_nat 7 < 10)%nat /\
  qty {| side := "sell"; value := 100; qty := None |} = None /\
  exists evs w',
    execute_prioritized_orders Sample.api 10 Scenario.sells_missing_qty Sample.buy_orders 7
      Sample.world = Some (evs, w', Raise (KeyError "qty")) /\
    filter is_submit evs = [SubmitOrder "CCC" (PyFloat 5) "sell"].
Proof.
  assert (Hfuel : (Z.to_nat 7 < 10)%nat) by (simpl; lia).
  split; [exact Hfuel|]. split; [reflexivity|].
  apply (sell_without_quantity_stops_the_run Sample.api 10
           [("CCC", {| side := "sell"; value := 500; qty := Some (PyFloat 5) |})]
           [("EEE", {| side := "sell"; value := 100; qty := Some (PyFloat 1) |})]
           Sample.buy_orders "DDD" {| side := "sell"; value := 100; qty := None |}
           7 Sample.world Hfuel).
  - intros s d [H|[]]. injection H as _ <-. discriminate.
  - reflexivity.
Defined.

Lemma closed_market_witness :
  get_clock_is_open Scenario.api_market_closed (broker Sample.world) = Ok false /\
  exists evs r,
    hello_pubsub insertion_order Scenario.api_market_closed 10 Scenario.config Sample.df
      Sample.world = Some (evs, Sample.world, r) /\
    forall e, In e evs -> is_submit e = false.
Proof.
  split; [reflexivity|].
  exact (closed_market_places_no_order insertion_order Scenario.api_market_closed 10
           Scenario.config Sample.df Sample.world eq_refl).
Defined.

Lemma failed_run_witness :
  (Z.to_nat 7 < 10)%nat /\
  hello_pubsub insertion_order Sample.api_without_BBB_price 10 Scenario.config Sample.df
    Sample.world
  = Some ([], Sample.world, Raise (BrokerError "no trade found for BBB")) /\
  Sample.world = Sample.world /\
  forall e0, In e0 (@nil event) -> is_submit e0 = false.
Proof.
  assert (Hfuel : (Z.to_nat (timeout Scenario.config) < 10)%nat) by (simpl; lia).
  split; [exact Hfuel|]. split; [reflexivity|].
  exact (failed_run_has_placed_no_order insertion_order Sample.api_without_BBB_price 10
           Scenario.config Sample.df Sample.world Sample.world []
           (BrokerError "no trade found for BBB") Hfuel eq_refl).
Defined.

Lemma run_submits_witness :
  (Z.to_nat 7 < 10)%nat /\
  snd (get_target_allocations Sample.df "Alpha") = Ok Sample.target /\
  calculate_orders insertion_order Sample.api tt Sample.target (dict_of_items Sample.held)
    (PrimFloat.mul 1000 1) = Ok Sample.orders /\
  separate_and_prioritize_orders Sample.orders = (Sample.sell_orders, Sample.buy_orders) /\
  exists evs w',
    hello_pubsub insertion_order Sample.api 10 Scenario.config Sample.df Sample.world
    = Some (evs ++ [LogInfo RebalancingComplete], w', Ok tt) /\
    filter is_submit evs
    = [SubmitOrder "CCC" (PyFloat 5) "sell"; SubmitOrder "AAA" (PyFloat 93.75) "buy";
       SubmitOrder "BBB" (PyInt 83) "buy"].
Proof.
  assert (Hfuel : (Z.to_nat (timeout Scenario.config) < 10)%nat) by (simpl; lia).
  split; [exact Hfuel|]. split; [reflexivity|]. split; [reflexivity|].
  split; [reflexivity|].
  exact (run_submits_the_calculated_orders insertion_order Sample.api 10 Scenario.config
           Sample.df Sample.world Sample.target Sample.held 1000%float Sample.orders
           Sample.sell_orders Sample.buy_orders
           Hfuel eq_refl eq_refl eq_refl eq_refl eq_refl eq_refl).
Defined.

Lemma non_positive_position_witness :
  (Z.to_nat 7 < 10)%nat /\
  dict_get "CCC" (dict_of_items Scenario.short_held)
  = Some {| pos_qty := -5; pos_market_value := -500 |} /\
  ~ In "CCC" (keys Sample.target) /\
  PrimFloat.ltb 0%float (-5)%float = false /\
  exists evs w',
    hello_pubsub insertion_order Scenario.api_short 10 Scenario.config Sample.df Sample.world
    = Some (evs, w', Ok tt) /\
    forall q a, ~ In (SubmitOrder "CCC" q a) evs.
Proof.
  assert (Hfuel : (Z.to_nat (timeout Scenario.config) < 10)%nat) by (simpl; lia).
  assert (Hnot : ~ In "CCC" (keys Sample.target)) by (simpl; intuition discriminate).
  split; [exact Hfuel|]. split; [reflexivity|]. split; [exact Hnot|]. split; [reflexivity|].
  apply (non_positive_position_is_never_closed insertion_order Scenario.api_short 10
           Scenario.config Sample.df Sample.world Sample.target Scenario.short_held
           1000%float
           [("CCC", {| side := "sell"; value := -500; qty := Some (PyFloat (-5)) |});
            ("AAA", {| side := "buy"; value := 750; qty := Some (PyFloat 93.75) |});
            ("BBB", {| side := "buy"; value := 250; qty := Some (PyInt 83) |})]
           "CCC" {| pos_qty := -5; pos_market_value := -500 |}
           Hfuel eq_refl eq_refl eq_refl eq_refl eq_refl eq_refl Hnot eq_refl).
Defined.

Lemma validate_config_witness :
  validate_config Scenario.settings = Validated /\
  validate_config Scenario.settings_without_timeout = SystemExit 1.
Proof.
  split.
  - destruct (validate_config_requires_its_seven_keys Scenario.settings) as [Hiff _].
    apply Hiff. simpl. tauto.
  - destruct (validate_config_requires_its_seven_keys Scenario.settings_without_timeout)
      as [Hiff Hexit].
    apply Hexit. intros Hvalid. apply Hiff in Hvalid.
    destruct Hvalid as (_ & _ & _ & _ & _ & _ & Htimeout).
    simpl in Htimeout. intuition discriminate.
Defined.

Lemma validated_config_witness :
  validate_config Scenario.settings = Validated /\
  ~ In "service_account_file" (keys Scenario.settings) /\
  read_before_fetch Scenario.settings = Raise (KeyError "service_account_file").
Proof.
  assert (Habs : ~ In "service_account_file" (keys Scenario.settings))
    by (simpl; intuition discriminate).
  split; [reflexivity|]. split; [exact Habs|].
  destruct (validated_config_may_lack_service_account_file Scenario.settings eq_refl)
    as [Hmissing _].
  exact (Hmissing Habs).
Defined.
